(** * SceneManager: texture and material registries, transform composer,
      camera input handling and the per-frame draw sequence.

    Shallow embedding of [Source/SceneManager.h] and [Source/SceneManager.cpp].

    Conventions of the embedding:
    - C++ [float] and [double] values are real numbers ([R]); rounding is
      not modelled.  [cos], [sin], [tan], [sqrt] and [PI] are those of the
      Standard Library.  A real number is never an infinity or a NaN, so
      what is proved over [R] is about values within the range of [float]
      and up to rounding.  The mouse handling of [RenderScene], where a
      cursor reading beyond that range gives an infinity and then a NaN,
      is embedded a second time over IEEE 754 binary32 (module [F32]),
      and the properties of yaw and pitch that are stated for every
      reading are proved there.
    - [int] and [uint32_t] values are integers ([Z]); the one conversion
      between them ([FindTextureID]) has its wrap-around written out.
    - A method is a function of the object ([SceneManager]) that returns
      the result, the object afterwards and the calls it made to the
      collaborators (OpenGL, GLFW, stb_image, ShaderManager, ShapeMeshes,
      std::cout), oldest first.  Undefined behaviour (an access outside
      [m_textureIDs], a call through a NULL [m_pShaderManager]) is [None].
    - What the collaborators hand back (the decoded image, the texture
      name of glGenTextures, the current window, cursor, clock and keys)
      is an argument of the method that asks for it.
    - [m_basicMeshes] is never NULL between constructor and destructor
      and has no member of its own here: its methods are calls.
    - [scroll_callback], which GLFW runs between two calls of
      [RenderScene] when the wheel is turned, is not embedded.  It adds
      to [cameraPos] and writes nothing else: yaw, pitch, the last cursor
      position, the flags, the speed and the up vector are as
      [statics_after] gives them whatever the wheel does, while
      [cameraPos] is as [statics_after] gives it only between two turns
      of the wheel.  What is proved of [cameraPos] below is about one
      call of [RenderScene], from the [cameraPos] the call starts
      with. *)

From Stdlib Require Import ZArith List String Bool Lia.
From Stdlib Require Import Reals Lra.
From Stdlib Require Import SpecFloat.
Import ListNotations.

Local Open Scope string_scope.
Local Open Scope list_scope.
Local Open Scope Z_scope.

(** ** glm: vectors, matrices and the transforms the scene manager uses *)

Module glm.

Local Open Scope R_scope.

Record vec2 := mkvec2 { x2 : R; y2 : R }.
Record vec3 := mkvec3 { x3 : R; y3 : R; z3 : R }.
Record vec4 := mkvec4 { x4 : R; y4 : R; z4 : R; w4 : R }.

(** glm::mat4 is column-major: [m[i]] is the i-th column. *)
Record mat4 := mkmat4 { col0 : vec4; col1 : vec4; col2 : vec4; col3 : vec4 }.

(** glm::vec3(s): the same scalar in every component. *)
Definition vec3_splat (s : R) : vec3 := mkvec3 s s s.

Definition vec3_add (a b : vec3) : vec3 :=
  mkvec3 (x3 a + x3 b) (y3 a + y3 b) (z3 a + z3 b).
Definition vec3_sub (a b : vec3) : vec3 :=
  mkvec3 (x3 a - x3 b) (y3 a - y3 b) (z3 a - z3 b).
(** [s * v] and [v * s] *)
Definition vec3_scale (s : R) (v : vec3) : vec3 :=
  mkvec3 (s * x3 v) (s * y3 v) (s * z3 v).

Definition dot (a b : vec3) : R := x3 a * x3 b + y3 a * y3 b + z3 a * z3 b.

Definition cross (a b : vec3) : vec3 :=
  mkvec3 (y3 a * z3 b - y3 b * z3 a)
         (z3 a * x3 b - z3 b * x3 a)
         (x3 a * y3 b - x3 b * y3 a).

Definition inversesqrt (s : R) : R := 1 / sqrt s.

(** glm::normalize(v) = v * inversesqrt(dot(v, v)).  On the zero vector
    glm divides by zero and returns NaNs; here the division of [R] is
    total and the result is the zero vector.  The two models agree, up to
    rounding, on a vector that is not zero. *)
Definition normalize (v : vec3) : vec3 := vec3_scale (inversesqrt (dot v v)) v.

Definition radians (degrees : R) : R := degrees * (PI / 180).

(** glm::clamp(x, minVal, maxVal) = min(max(x, minVal), maxVal) *)
Definition clamp (x minVal maxVal : R) : R := Rmin (Rmax x minVal) maxVal.

Definition vec4_add (a b : vec4) : vec4 :=
  mkvec4 (x4 a + x4 b) (y4 a + y4 b) (z4 a + z4 b) (w4 a + w4 b).
Definition vec4_scale (v : vec4) (s : R) : vec4 :=
  mkvec4 (x4 v * s) (y4 v * s) (z4 v * s) (w4 v * s).

(** mat4(1.0f) *)
Definition identity : mat4 :=
  mkmat4 (mkvec4 1 0 0 0) (mkvec4 0 1 0 0) (mkvec4 0 0 1 0) (mkvec4 0 0 0 1).

(** [m * v]: the combination of the columns of [m] weighted by [v]. *)
Definition mat4_mul_vec4 (m : mat4) (v : vec4) : vec4 :=
  vec4_add (vec4_add (vec4_add (vec4_scale (col0 m) (x4 v))
                               (vec4_scale (col1 m) (y4 v)))
                     (vec4_scale (col2 m) (z4 v)))
           (vec4_scale (col3 m) (w4 v)).

(** [a * b]: column j of the product is [a] applied to column j of [b]. *)
Definition mat4_mul (a b : mat4) : mat4 :=
  mkmat4 (mat4_mul_vec4 a (col0 b)) (mat4_mul_vec4 a (col1 b))
         (mat4_mul_vec4 a (col2 b)) (mat4_mul_vec4 a (col3 b)).

(** glm::scale(v) *)
Definition scale (v : vec3) : mat4 :=
  mkmat4 (vec4_scale (col0 identity) (x3 v))
         (vec4_scale (col1 identity) (y3 v))
         (vec4_scale (col2 identity) (z3 v))
         (col3 identity).

(** glm::translate(v) *)
Definition translate (v : vec3) : mat4 :=
  mkmat4 (col0 identity) (col1 identity) (col2 identity)
         (vec4_add (vec4_add (vec4_add (vec4_scale (col0 identity) (x3 v))
                                       (vec4_scale (col1 identity) (y3 v)))
                             (vec4_scale (col2 identity) (z3 v)))
                   (col3 identity)).

(** glm::rotate(angle, v), angle in radians, about the normalized axis. *)
Definition rotate (angle : R) (v : vec3) : mat4 :=
  let c := cos angle in
  let s := sin angle in
  let axis := normalize v in
  let temp := vec3_scale (1 - c) axis in
  let r00 := c + x3 temp * x3 axis in
  let r01 := x3 temp * y3 axis + s * z3 axis in
  let r02 := x3 temp * z3 axis - s * y3 axis in
  let r10 := y3 temp * x3 axis - s * z3 axis in
  let r11 := c + y3 temp * y3 axis in
  let r12 := y3 temp * z3 axis + s * x3 axis in
  let r20 := z3 temp * x3 axis + s * y3 axis in
  let r21 := z3 temp * y3 axis - s * x3 axis in
  let r22 := c + z3 temp * z3 axis in
  let m := identity in
  mkmat4
    (vec4_add (vec4_add (vec4_scale (col0 m) r00) (vec4_scale (col1 m) r01))
              (vec4_scale (col2 m) r02))
    (vec4_add (vec4_add (vec4_scale (col0 m) r10) (vec4_scale (col1 m) r11))
              (vec4_scale (col2 m) r12))
    (vec4_add (vec4_add (vec4_scale (col0 m) r20) (vec4_scale (col1 m) r21))
              (vec4_scale (col2 m) r22))
    (col3 m).

(** glm::lookAt(eye, center, up), right-handed. *)
Definition lookAt (eye center up : vec3) : mat4 :=
  let f := normalize (vec3_sub center eye) in
  let s := normalize (cross f up) in
  let u := cross s f in
  mkmat4 (mkvec4 (x3 s) (x3 u) (- x3 f) 0)
         (mkvec4 (y3 s) (y3 u) (- y3 f) 0)
         (mkvec4 (z3 s) (z3 u) (- z3 f) 0)
         (mkvec4 (- dot s eye) (- dot u eye) (dot f eye) 1).

(** glm::perspective(fovy, aspect, zNear, zFar), right-handed, depth -1..1. *)
Definition perspective (fovy aspect zNear zFar : R) : mat4 :=
  let tanHalfFovy := tan (fovy / 2) in
  mkmat4 (mkvec4 (1 / (aspect * tanHalfFovy)) 0 0 0)
         (mkvec4 0 (1 / tanHalfFovy) 0 0)
         (mkvec4 0 0 (- (zFar + zNear) / (zFar - zNear)) (-1))
         (mkvec4 0 0 (- (2 * zFar * zNear) / (zFar - zNear)) 0).

(** glm::ortho(left, right, bottom, top, zNear, zFar), right-handed, depth -1..1. *)
Definition ortho (left right bottom top zNear zFar : R) : mat4 :=
  mkmat4 (mkvec4 (2 / (right - left)) 0 0 0)
         (mkvec4 0 (2 / (top - bottom)) 0 0)
         (mkvec4 0 0 (- 2 / (zFar - zNear)) 0)
         (mkvec4 (- (right + left) / (right - left))
                 (- (top + bottom) / (top - bottom))
                 (- (zFar + zNear) / (zFar - zNear)) 1).

(** A point of space as the homogeneous vector the matrices act on. *)
Definition point (p : vec3) : vec4 := mkvec4 (x3 p) (y3 p) (z3 p) 1.

End glm.

Import glm.

(** ** The calls made to the collaborators *)

Inductive GLenum :=
| GL_TEXTURE_2D | GL_TEXTURE_WRAP_S | GL_TEXTURE_WRAP_T
| GL_TEXTURE_MIN_FILTER | GL_TEXTURE_MAG_FILTER
| GL_REPEAT | GL_LINEAR
| GL_RGB8 | GL_RGB | GL_RGBA8 | GL_RGBA | GL_UNSIGNED_BYTE.

(** What is written to std::cout. *)
Inductive message :=
| msg_loaded (filename : string) (width height channels : Z)
| msg_channels (channels : Z)
| msg_could_not_load (filename : string)
| msg_error_wood.

Inductive call :=
(* stb_image *)
| stbi_set_flip_vertically_on_load (flag : bool)
| stbi_load (filename : string)
| stbi_image_free
(* OpenGL *)
| glGenTextures (n : Z) (name : Z)
| glBindTexture (target : GLenum) (texture : Z)
| glTexParameteri (target pname param : GLenum)
| glTexImage2D (target : GLenum) (level : Z) (internalformat : GLenum)
               (width height border : Z) (format type : GLenum)
| glGenerateMipmap (target : GLenum)
| glActiveTexture (unit : Z)
| glDeleteTextures (n : Z) (name : Z)
| glClearColor (r g b a : R)
| glClear
(* GLFW *)
| glfwSetWindowUserPointer
| glfwSetScrollCallback
(* std::cout *)
| cout (m : message)
(* ShaderManager *)
| setMat4Value (name : string) (value : mat4)
| setIntValue (name : string) (value : Z)
| setVec4Value (name : string) (value : vec4)
| setVec3Value (name : string) (value : vec3)
| setVec2Value (name : string) (value : vec2)
| setFloatValue (name : string) (value : R)
| setSampler2DValue (name : string) (value : Z)
(* ShapeMeshes *)
| LoadPlaneMesh | LoadCylinderMesh | LoadTorusMesh
| DrawPlaneMesh | DrawCylinderMesh | DrawTorusMesh.

(** ** SceneManager.h *)

Record TEXTURE_INFO := mkTEXTURE_INFO {
  tag : string;
  ID : Z                      (* uint32_t *)
}.

(** The member [tag], for where a parameter of a method is named [tag] too. *)
Definition tag_of (e : TEXTURE_INFO) : string := tag e.

Record OBJECT_MATERIAL := mkOBJECT_MATERIAL {
  ambientStrength : R;
  ambientColor : vec3;
  diffuseColor : vec3;
  specularColor : vec3;
  shininess : R;
  mtag : string               (* the member [tag] of OBJECT_MATERIAL *)
}.

(** A pointer to the ShaderManager: [None] is NULL. *)
Definition ShaderManager_ptr := option positive.

Record SceneManager := mkSceneManager {
  m_pShaderManager : ShaderManager_ptr;
  m_loadedTextures : Z;                        (* int *)
  m_textureIDs : list TEXTURE_INFO;            (* TEXTURE_INFO [16] *)
  m_objectMaterials : list OBJECT_MATERIAL     (* std::vector *)
}.

(** The extent of [m_textureIDs]. *)
Definition TEXTURE_SLOTS : Z := 16.

(** [m_textureIDs[i]]: an index outside the array is undefined behaviour. *)
Definition array_get (a : list TEXTURE_INFO) (i : Z) : option TEXTURE_INFO :=
  if (0 <=? i) && (i <? TEXTURE_SLOTS) then nth_error a (Z.to_nat i) else None.

Fixpoint list_set (a : list TEXTURE_INFO) (n : nat) (e : TEXTURE_INFO)
  : list TEXTURE_INFO :=
  match a, n with
  | [], _ => []
  | _ :: r, O => e :: r
  | h :: r, S n' => h :: list_set r n' e
  end.

(** [m_textureIDs[i] = e]: an index outside the array is undefined behaviour. *)
Definition array_set (a : list TEXTURE_INFO) (i : Z) (e : TEXTURE_INFO)
  : option (list TEXTURE_INFO) :=
  if (0 <=? i) && (i <? TEXTURE_SLOTS) then Some (list_set a (Z.to_nat i) e) else None.

(** The array really has its sixteen elements. *)
Definition array_ok (this : SceneManager) : Prop :=
  List.length (m_textureIDs this) = 16%nat.

(** The entries the registry counts as loaded: the first [m_loadedTextures]. *)
Definition loaded (this : SceneManager) : list TEXTURE_INFO :=
  firstn (Z.to_nat (m_loadedTextures this)) (m_textureIDs this).

(** ** Methods: result, object afterwards and calls made; [None] is
       undefined behaviour *)

Definition M (A : Type) : Type :=
  SceneManager -> option (A * SceneManager * list call).

Definition ret {A} (a : A) : M A := fun this => Some (a, this, []).

Definition bind {A B} (m : M A) (f : A -> M B) : M B :=
  fun this =>
    match m this with
    | None => None
    | Some (a, this1, calls1) =>
        match f a this1 with
        | None => None
        | Some (b, this2, calls2) => Some (b, this2, calls1 ++ calls2)
        end
    end.

Declare Scope method_scope.
Delimit Scope method_scope with method.
Notation "x <- m ;; k" := (bind m (fun x => k))
  (at level 61, m at next level, right associativity) : method_scope.
Notation "m ;; k" := (bind m (fun _ => k))
  (at level 61, right associativity) : method_scope.
Local Open Scope method_scope.

(** A call to a collaborator that needs no object of ours. *)
Definition emit (c : call) : M unit := fun this => Some (tt, this, [c]).

(** [m_pShaderManager->c]: undefined behaviour through a NULL pointer. *)
Definition shader (c : call) : M unit :=
  fun this =>
    match m_pShaderManager this with
    | None => None
    | Some _ => Some (tt, this, [c])
    end.

Definition get : M SceneManager := fun this => Some (this, this, []).
Definition put (this' : SceneManager) : M unit := fun _ => Some (tt, this', []).
Definition undefined {A} : M A := fun _ => None.
Definition lift {A} (o : option A) : M A :=
  match o with Some a => ret a | None => undefined end.

(** [SceneManager::SceneManager(pShaderManager)].  The constructor assigns
    neither [m_loadedTextures] nor the [ID]s of the array: their values
    after construction are indeterminate and given here by [loaded0] and
    [id0].  The tags are default-constructed (empty) strings. *)
Definition SceneManager_new (pShaderManager : ShaderManager_ptr)
    (loaded0 : Z) (id0 : nat -> Z) : SceneManager :=
  {| m_pShaderManager := pShaderManager;
     m_loadedTextures := loaded0;
     m_textureIDs := map (fun i => mkTEXTURE_INFO EmptyString (id0 i)) (seq 0 16);
     m_objectMaterials := [] |}.

(** What stbi_load hands back: NULL ([None]) or an image with its size
    and number of channels. *)
Record stbi_image := mkstbi_image {
  width : Z; height : Z; colorChannels : Z
}.

(** [CreateGLTexture(filename, tag)], given what [stbi_load] returns
    ([image]) and the name [glGenTextures] writes ([textureID]). *)
Definition CreateGLTexture (image : option stbi_image) (textureID : Z)
    (filename : string) (tag : string) : M bool :=
  emit (stbi_set_flip_vertically_on_load true) ;;
  emit (stbi_load filename) ;;
  match image with
  | Some img =>
      emit (cout (msg_loaded filename (width img) (height img) (colorChannels img))) ;;
      emit (glGenTextures 1 textureID) ;;
      emit (glBindTexture GL_TEXTURE_2D textureID) ;;
      emit (glTexParameteri GL_TEXTURE_2D GL_TEXTURE_WRAP_S GL_REPEAT) ;;
      emit (glTexParameteri GL_TEXTURE_2D GL_TEXTURE_WRAP_T GL_REPEAT) ;;
      emit (glTexParameteri GL_TEXTURE_2D GL_TEXTURE_MIN_FILTER GL_LINEAR) ;;
      emit (glTexParameteri GL_TEXTURE_2D GL_TEXTURE_MAG_FILTER GL_LINEAR) ;;
      uploaded <-
        (if colorChannels img =? 3 then
           emit (glTexImage2D GL_TEXTURE_2D 0 GL_RGB8 (width img) (height img) 0
                              GL_RGB GL_UNSIGNED_BYTE) ;;
           ret true
         else if colorChannels img =? 4 then
           emit (glTexImage2D GL_TEXTURE_2D 0 GL_RGBA8 (width img) (height img) 0
                              GL_RGBA GL_UNSIGNED_BYTE) ;;
           ret true
         else
           emit (cout (msg_channels (colorChannels img))) ;;
           ret false) ;;
      if uploaded : bool then
        emit (glGenerateMipmap GL_TEXTURE_2D) ;;
        emit stbi_image_free ;;
        emit (glBindTexture GL_TEXTURE_2D 0) ;;
        this <- get ;;
        (* m_textureIDs[m_loadedTextures].ID = textureID; *)
        e <- lift (array_get (m_textureIDs this) (m_loadedTextures this)) ;;
        a1 <- lift (array_set (m_textureIDs this) (m_loadedTextures this)
                              (mkTEXTURE_INFO (tag_of e) textureID)) ;;
        (* m_textureIDs[m_loadedTextures].tag = tag; *)
        a2 <- lift (array_set a1 (m_loadedTextures this)
                              (mkTEXTURE_INFO tag textureID)) ;;
        (* m_loadedTextures++; *)
        put {| m_pShaderManager := m_pShaderManager this;
               m_loadedTextures := m_loadedTextures this + 1;
               m_textureIDs := a2;
               m_objectMaterials := m_objectMaterials this |} ;;
        ret true
      else
        ret false                      (* the [return false] of the else branch *)
  | None =>
      emit (cout (msg_could_not_load filename)) ;;
      ret false
  end.

(** [BindGLTextures()]: [for (i = 0; i < m_loadedTextures; i++)], with [n]
    the iterations still to run. *)
Fixpoint BindGLTextures_for (n : nat) (i : Z) : M unit :=
  match n with
  | O => ret tt
  | S n' =>
      this <- get ;;
      emit (glActiveTexture i) ;;                  (* GL_TEXTURE0 + i *)
      e <- lift (array_get (m_textureIDs this) i) ;;
      emit (glBindTexture GL_TEXTURE_2D (ID e)) ;;
      BindGLTextures_for n' (i + 1)
  end.

Definition BindGLTextures : M unit :=
  this <- get ;;
  BindGLTextures_for (Z.to_nat (m_loadedTextures this)) 0.

Fixpoint DestroyGLTextures_for (n : nat) (i : Z) : M unit :=
  match n with
  | O => ret tt
  | S n' =>
      this <- get ;;
      e <- lift (array_get (m_textureIDs this) i) ;;
      emit (glDeleteTextures 1 (ID e)) ;;
      DestroyGLTextures_for n' (i + 1)
  end.

Definition DestroyGLTextures : M unit :=
  this <- get ;;
  DestroyGLTextures_for (Z.to_nat (m_loadedTextures this)) 0.

(** The conversion of a [uint32_t] to [int]. *)
Definition int_of_uint32 (u : Z) : Z :=
  if u <? 2147483648 then u else u - 4294967296.

(** The loop of [FindTextureID]:
    [while ((index < m_loadedTextures) && (bFound == false))], with [n] the
    distance from [index] to [m_loadedTextures]; a match sets [bFound] and
    ends the loop. *)
Fixpoint FindTextureID_while (n : nat) (a : list TEXTURE_INFO) (tag : string)
    (index textureID : Z) : option Z :=
  match n with
  | O => Some textureID
  | S n' =>
      match array_get a index with
      | None => None
      | Some e =>
          if String.eqb (tag_of e) tag then Some (int_of_uint32 (ID e))
          else FindTextureID_while n' a tag (index + 1) textureID
      end
  end.

Definition FindTextureID (this : SceneManager) (tag : string) : option Z :=
  FindTextureID_while (Z.to_nat (m_loadedTextures this)) (m_textureIDs this)
                      tag 0 (-1).

(** The loop of [FindTextureSlot], as for [FindTextureID]. *)
Fixpoint FindTextureSlot_while (n : nat) (a : list TEXTURE_INFO) (tag : string)
    (index textureSlot : Z) : option Z :=
  match n with
  | O => Some textureSlot
  | S n' =>
      match array_get a index with
      | None => None
      | Some e =>
          if String.eqb (tag_of e) tag then Some index
          else FindTextureSlot_while n' a tag (index + 1) textureSlot
      end
  end.

Definition FindTextureSlot (this : SceneManager) (tag : string) : option Z :=
  FindTextureSlot_while (Z.to_nat (m_loadedTextures this)) (m_textureIDs this)
                        tag 0 (-1).

(** The loop of [FindMaterial] over the elements from [index] on: the
    element that sets [bFound], if there is one. *)
Fixpoint FindMaterial_while (rest : list OBJECT_MATERIAL) (tag : string)
  : option OBJECT_MATERIAL :=
  match rest with
  | [] => None
  | m :: rest' =>
      if String.eqb (mtag m) tag then Some m else FindMaterial_while rest' tag
  end.

(** [FindMaterial(tag, material)]: the result and [material] afterwards. *)
Definition FindMaterial (this : SceneManager) (tag : string)
    (material : OBJECT_MATERIAL) : bool * OBJECT_MATERIAL :=
  match m_objectMaterials this with
  | [] => (false, material)
  | _ :: _ =>
      match FindMaterial_while (m_objectMaterials this) tag with
      | Some m => (true, m)
      | None => (false, material)
      end
  end.

Definition g_ModelName := "model".
Definition g_ColorValueName := "objectColor".
Definition g_TextureValueName := "objectTexture".
Definition g_UseTextureName := "bUseTexture".
Definition g_UseLightingName := "bUseLighting".

(** [true] and [false] as the [int] handed to [setIntValue]. *)
Definition int_of_bool (b : bool) : Z := if b then 1 else 0.

(** The value of [modelView] in [SetTransformations]. *)
Definition modelView (scaleXYZ : vec3)
    (XrotationDegrees YrotationDegrees ZrotationDegrees : R)
    (positionXYZ : vec3) : mat4 :=
  let scale := glm.scale scaleXYZ in
  let rotationX := rotate (radians XrotationDegrees) (mkvec3 1 0 0) in
  let rotationY := rotate (radians YrotationDegrees) (mkvec3 0 1 0) in
  let rotationZ := rotate (radians ZrotationDegrees) (mkvec3 0 0 1) in
  let translation := translate positionXYZ in
  mat4_mul (mat4_mul (mat4_mul (mat4_mul translation rotationX) rotationY)
                     rotationZ) scale.

Definition SetTransformations (scaleXYZ : vec3)
    (XrotationDegrees YrotationDegrees ZrotationDegrees : R)
    (positionXYZ : vec3) : M unit :=
  this <- get ;;
  match m_pShaderManager this with
  | Some _ =>
      shader (setMat4Value g_ModelName
                (modelView scaleXYZ XrotationDegrees YrotationDegrees
                           ZrotationDegrees positionXYZ))
  | None => ret tt
  end.

Definition SetShaderColor (redColorValue greenColorValue blueColorValue
                           alphaValue : R) : M unit :=
  let currentColor :=
    mkvec4 redColorValue greenColorValue blueColorValue alphaValue in
  this <- get ;;
  match m_pShaderManager this with
  | Some _ =>
      shader (setIntValue g_UseTextureName (int_of_bool false)) ;;
      shader (setVec4Value g_ColorValueName currentColor)
  | None => ret tt
  end.

Definition SetShaderTexture (textureTag : string) : M unit :=
  this <- get ;;
  match m_pShaderManager this with
  | Some _ =>
      shader (setIntValue g_UseTextureName (int_of_bool true)) ;;
      textureID <- lift (FindTextureSlot this textureTag) ;;
      shader (setSampler2DValue g_TextureValueName textureID)
  | None => ret tt
  end.

Definition SetTextureUVScale (u v : R) : M unit :=
  this <- get ;;
  match m_pShaderManager this with
  | Some _ => shader (setVec2Value "UVscale" (mkvec2 u v))
  | None => ret tt
  end.

(** The local [OBJECT_MATERIAL material;] of [SetShaderMaterial] before
    [FindMaterial] assigns it; it is read only after it has been assigned. *)
Definition unassigned_material : OBJECT_MATERIAL :=
  mkOBJECT_MATERIAL 0 (vec3_splat 0) (vec3_splat 0) (vec3_splat 0) 0 EmptyString.

Definition SetShaderMaterial (materialTag : string) : M unit :=
  this <- get ;;
  match m_objectMaterials this with
  | [] => ret tt
  | _ :: _ =>
      let '(found, material) := FindMaterial this materialTag unassigned_material in
      if found then
        shader (setVec3Value "material.ambientColor" (ambientColor material)) ;;
        shader (setFloatValue "material.ambientStrength" (ambientStrength material)) ;;
        shader (setVec3Value "material.diffuseColor" (diffuseColor material)) ;;
        shader (setVec3Value "material.specularColor" (specularColor material)) ;;
        shader (setFloatValue "material.shininess" (shininess material))
      else ret tt
  end.

Definition SetupSceneLights (cameraPos cameraFront : vec3) : M unit :=
  shader (setVec3Value "dirLight.direction" (mkvec3 (-0.2) (-1.0) (-0.1))) ;;
  shader (setVec3Value "dirLight.ambient" (vec3_splat 0.4)) ;;
  shader (setVec3Value "dirLight.diffuse" (vec3_splat 0.7)) ;;
  shader (setVec3Value "dirLight.specular" (vec3_splat 0.7)) ;;
  shader (setVec3Value "pointLight.position" (mkvec3 0.0 4.0 6.0)) ;;
  shader (setVec3Value "pointLight.ambient" (vec3_splat 0.25)) ;;
  shader (setVec3Value "pointLight.diffuse" (vec3_splat 0.75)) ;;
  shader (setVec3Value "pointLight.specular" (vec3_splat 1.0)) ;;
  shader (setFloatValue "pointLight.constant" 1.0) ;;
  shader (setFloatValue "pointLight.linear" 0.09) ;;
  shader (setFloatValue "pointLight.quadratic" 0.032) ;;
  shader (setVec3Value "pointLight2.position" (mkvec3 (-4.0) 3.0 (-2.0))) ;;
  shader (setVec3Value "pointLight2.ambient" (mkvec3 0.08 0.04 0.02)) ;;
  shader (setVec3Value "pointLight2.diffuse" (mkvec3 0.3 0.15 0.08)) ;;
  shader (setVec3Value "pointLight2.specular" (mkvec3 0.4 0.2 0.1)) ;;
  shader (setFloatValue "pointLight2.constant" 1.0) ;;
  shader (setFloatValue "pointLight2.linear" 0.14) ;;
  shader (setFloatValue "pointLight2.quadratic" 0.07) ;;
  shader (setVec3Value "spotLight.position" cameraPos) ;;
  shader (setVec3Value "spotLight.direction" cameraFront) ;;
  shader (setFloatValue "spotLight.cutOff" (cos (radians 10.0))) ;;
  shader (setFloatValue "spotLight.outerCutOff" (cos (radians 15.0))) ;;
  shader (setVec3Value "spotLight.ambient" (vec3_splat 0.15)) ;;
  shader (setVec3Value "spotLight.diffuse" (vec3_splat 0.8)) ;;
  shader (setVec3Value "spotLight.specular" (vec3_splat 1.0)) ;;
  shader (setFloatValue "spotLight.constant" 1.0) ;;
  shader (setFloatValue "spotLight.linear" 0.09) ;;
  shader (setFloatValue "spotLight.quadratic" 0.032).

Definition woodMaterial : OBJECT_MATERIAL :=
  {| mtag := "woodMaterial";
     ambientColor := mkvec3 0.15 0.08 0.03;
     ambientStrength := 0.25;
     diffuseColor := mkvec3 0.5 0.3 0.1;
     specularColor := vec3_splat 0.5;
     shininess := 48.0 |}.

Definition whiteMaterial : OBJECT_MATERIAL :=
  {| mtag := "whiteMaterial";
     ambientColor := vec3_splat 0.4;
     ambientStrength := 0.5;
     diffuseColor := vec3_splat 1.0;
     specularColor := vec3_splat 1.2;
     shininess := 96.0 |}.

(** [m_objectMaterials.push_back(material)] *)
Definition push_back (material : OBJECT_MATERIAL) : M unit :=
  this <- get ;;
  put {| m_pShaderManager := m_pShaderManager this;
         m_loadedTextures := m_loadedTextures this;
         m_textureIDs := m_textureIDs this;
         m_objectMaterials := m_objectMaterials this ++ [material] |}.

(** [PrepareScene()], given what [stbi_load] and [glGenTextures] hand back
    for Debug/wood.jpg. *)
Definition PrepareScene (image : option stbi_image) (textureID : Z) : M unit :=
  emit LoadPlaneMesh ;;
  emit LoadCylinderMesh ;;
  emit LoadTorusMesh ;;
  created <- CreateGLTexture image textureID "Debug/wood.jpg" "wood" ;;
  (if negb created then emit (cout msg_error_wood) else ret tt) ;;
  SetTextureUVScale 8.0 4.0 ;;
  BindGLTextures ;;
  push_back woodMaterial ;;
  push_back whiteMaterial.

(** ** RenderScene *)

Inductive GLFW_KEY :=
| GLFW_KEY_W | GLFW_KEY_S | GLFW_KEY_A | GLFW_KEY_D
| GLFW_KEY_Q | GLFW_KEY_E | GLFW_KEY_P | GLFW_KEY_O.

(** What GLFW hands back for the current window during one call of
    [RenderScene]: the clock, the cursor and, for each key, whether
    [glfwGetKey] is [GLFW_PRESS]. *)
Record GLFWwindow := mkGLFWwindow {
  glfwGetTime : R;
  xpos : R;
  ypos : R;
  glfwGetKey : GLFW_KEY -> bool
}.

(** The [static] locals of [RenderScene]. *)
Record statics := mkstatics {
  cameraPos : vec3;
  cameraFront : vec3;
  cameraUp : vec3;
  yaw : R;
  pitch : R;
  lastX : R;
  lastY : R;
  speed : R;
  firstMouse : bool;
  perspectiveMode : bool;
  lastFrame : R
}.

(** Their initializers. *)
Definition statics_init : statics :=
  {| cameraPos := mkvec3 0.0 2.0 8.0;
     cameraFront := mkvec3 0.0 0.0 (-1.0);
     cameraUp := mkvec3 0.0 1.0 0.0;
     yaw := -90.0;
     pitch := 0.0;
     lastX := 400.0;
     lastY := 300.0;
     speed := 5.0;
     firstMouse := true;
     perspectiveMode := true;
     lastFrame := 0.0 |}.

Definition sensitivity : R := 0.1.

(** The statics after the timing, mouse, keyboard and projection-toggle
    part of [RenderScene] (from "Handle frame timing" to "Projection
    toggle"), for the window [w]. *)
Definition handle_input (w : GLFWwindow) (s : statics) : statics :=
  let currentFrame := glfwGetTime w in
  let deltaTime := (currentFrame - lastFrame s)%R in
  let adjustedSpeed := (speed s * deltaTime)%R in
  (* if (firstMouse) { lastX = xpos; lastY = ypos; firstMouse = false; } *)
  let lastX0 := if firstMouse s then xpos w else lastX s in
  let lastY0 := if firstMouse s then ypos w else lastY s in
  let xoffset := ((xpos w - lastX0) * sensitivity)%R in
  let yoffset := ((lastY0 - ypos w) * sensitivity)%R in
  let yaw' := (yaw s + xoffset)%R in
  let pitch' := clamp (pitch s + yoffset) (-89.0) 89.0 in
  let front :=
    mkvec3 (cos (radians yaw') * cos (radians pitch'))
           (sin (radians pitch'))
           (sin (radians yaw') * cos (radians pitch')) in
  let cameraFront' := normalize front in
  let up := cameraUp s in
  let right := normalize (cross cameraFront' up) in
  let p0 := cameraPos s in
  let p1 := if glfwGetKey w GLFW_KEY_W
            then vec3_add p0 (vec3_scale adjustedSpeed cameraFront') else p0 in
  let p2 := if glfwGetKey w GLFW_KEY_S
            then vec3_sub p1 (vec3_scale adjustedSpeed cameraFront') else p1 in
  let p3 := if glfwGetKey w GLFW_KEY_A
            then vec3_sub p2 (vec3_scale adjustedSpeed right) else p2 in
  let p4 := if glfwGetKey w GLFW_KEY_D
            then vec3_add p3 (vec3_scale adjustedSpeed right) else p3 in
  let p5 := if glfwGetKey w GLFW_KEY_Q
            then vec3_add p4 (vec3_scale adjustedSpeed up) else p4 in
  let p6 := if glfwGetKey w GLFW_KEY_E
            then vec3_sub p5 (vec3_scale adjustedSpeed up) else p5 in
  let mode1 := if glfwGetKey w GLFW_KEY_P then true else perspectiveMode s in
  let mode2 := if glfwGetKey w GLFW_KEY_O then false else mode1 in
  {| cameraPos := p6;
     cameraFront := cameraFront';
     cameraUp := up;
     yaw := yaw';
     pitch := pitch';
     lastX := xpos w;
     lastY := ypos w;
     speed := speed s;
     firstMouse := false;
     perspectiveMode := mode2;
     lastFrame := currentFrame |}.

(** [perspectiveMode ? glm::perspective(...) : glm::ortho(...)] *)
Definition projection (perspectiveMode : bool) : mat4 :=
  if perspectiveMode
  then perspective (radians 45.0) (800.0 / 600.0) 0.1 100.0
  else ortho (-10.0) 10.0 (-10.0) 10.0 0.1 100.0.

(** The draws of [RenderScene], from "Floor" to the end. *)
Definition draw_objects : M unit :=
  (* Floor (Wood Table) *)
  SetTransformations (mkvec3 20.0 1.0 10.0) 0.0 0.0 0.0 (mkvec3 0.0 0.0 0.0) ;;
  SetTextureUVScale 4.0 2.0 ;;
  SetShaderTexture "wood" ;;
  SetShaderMaterial "woodMaterial" ;;
  emit DrawPlaneMesh ;;
  shader (setIntValue "bUseTexture" (int_of_bool false)) ;;
  (* Mug Body *)
  SetTransformations (mkvec3 0.75 1.125 0.75) 0.0 0.0 0.0 (mkvec3 8.0 0.5625 0.0) ;;
  SetShaderMaterial "whiteMaterial" ;;
  SetShaderColor 1.0 1.0 1.0 1.0 ;;
  emit DrawCylinderMesh ;;
  (* Mug Rim *)
  SetTransformations (mkvec3 0.375 0.375 0.0375) 90.0 0.0 0.0 (mkvec3 8.0 1.125 0.0) ;;
  SetShaderColor 1.0 1.0 1.0 1.0 ;;
  emit DrawTorusMesh ;;
  (* Mug Handle *)
  SetTransformations (mkvec3 0.3 0.3 0.075) 0.0 0.0 90.0 (mkvec3 8.75 0.85 0.0) ;;
  SetShaderColor 1.0 1.0 1.0 1.0 ;;
  emit DrawTorusMesh ;;
  (* Notebook *)
  SetTransformations (mkvec3 3.0 0.2 2.0) 0.0 15.0 0.0 (mkvec3 (-3.0) 0.2 1.0) ;;
  SetShaderColor 0.1 0.1 0.4 1.0 ;;
  emit DrawPlaneMesh ;;
  (* Pen *)
  SetTransformations (mkvec3 0.1 2.0 0.1) 90.0 15.0 0.0 (mkvec3 (-2.8) 0.5 1.7) ;;
  SetShaderColor 1.0 0.0 0.0 1.0 ;;
  emit DrawCylinderMesh ;;
  (* Laptop Base *)
  SetTransformations (mkvec3 3.0 0.05 2.0) 0.0 (-10.0) 0.0 (mkvec3 3.0 0.075 (-2.0)) ;;
  SetShaderColor 0.75 0.75 0.75 1.0 ;;
  emit DrawPlaneMesh ;;
  (* Laptop Screen *)
  SetTransformations (mkvec3 3.0 2.0 1.0) (-100.0) 0.0 0.0 (mkvec3 3.0 1.15 (-2.95)) ;;
  SetShaderColor 0.2 0.2 0.2 1.0 ;;
  emit DrawPlaneMesh.

(** [RenderScene()], given what [glfwGetCurrentContext] returns ([None] is
    NULL) and the statics before; the result is the statics after. *)
Definition RenderScene (window : option GLFWwindow) (s : statics) : M statics :=
  match window with
  | None => ret s                                  (* if (!window) return; *)
  | Some w =>
      emit (glClearColor 0.05 0.05 0.1 1.0) ;;
      emit glClear ;;
      emit glfwSetWindowUserPointer ;;
      emit glfwSetScrollCallback ;;
      shader (setVec3Value "viewPos" (cameraPos s)) ;;
      shader (setIntValue "bUseLighting" (int_of_bool true)) ;;
      SetupSceneLights (cameraPos s) (cameraFront s) ;;
      let s' := handle_input w s in
      let view := lookAt (cameraPos s')
                         (vec3_add (cameraPos s') (cameraFront s'))
                         (cameraUp s') in
      shader (setMat4Value "view" view) ;;
      shader (setMat4Value "projection" (projection (perspectiveMode s'))) ;;
      draw_objects ;;
      ret s'
  end.

(** A run of the render loop: one call of [RenderScene] per element, each
    with what GLFW hands back for it; [None] when a call is undefined. *)
Fixpoint render_loop (frames : list (option GLFWwindow)) (s : statics)
    (this : SceneManager) : option (statics * SceneManager * list call) :=
  match frames with
  | [] => Some (s, this, [])
  | window :: frames' =>
      match RenderScene window s this with
      | None => None
      | Some (s1, this1, calls1) =>
          match render_loop frames' s1 this1 with
          | None => None
          | Some (s2, this2, calls2) => Some (s2, this2, calls1 ++ calls2)
          end
      end
  end.

(** ** Reading a trace of calls *)

Definition is_draw (c : call) : bool :=
  match c with
  | DrawPlaneMesh | DrawCylinderMesh | DrawTorusMesh => true
  | _ => false
  end.

(** Modelled from the spec: ShaderManager is not among the sources.  The
    spec's shader state holds named parameters pushed by the setters, so a
    parameter's value is the one pushed to it last; [current] is its value
    before the calls. *)
Fixpoint int_uniform (name : string) (calls : list call) (current : option Z)
  : option Z :=
  match calls with
  | [] => current
  | setIntValue n v :: rest =>
      int_uniform name rest (if String.eqb n name then Some v else current)
  | _ :: rest => int_uniform name rest current
  end.

(** Modelled from the spec: as [int_uniform], for a matrix parameter. *)
Fixpoint mat4_uniform (name : string) (calls : list call) (current : option mat4)
  : option mat4 :=
  match calls with
  | [] => current
  | setMat4Value n v :: rest =>
      mat4_uniform name rest (if String.eqb n name then Some v else current)
  | _ :: rest => mat4_uniform name rest current
  end.

(** What was pushed to the shader between one draw and the next: the
    transform, the material (by its shininess, the last member pushed),
    the color, the use-texture flag and the sampler. *)
Record settings := mksettings {
  set_model : option mat4;
  set_shininess : option R;
  set_color : option vec4;
  set_useTexture : option Z;
  set_sampler : option Z
}.

Definition no_settings : settings := mksettings None None None None None.

Definition note (c : call) (p : settings) : settings :=
  match c with
  | setMat4Value n v =>
      if String.eqb n g_ModelName
      then mksettings (Some v) (set_shininess p) (set_color p) (set_useTexture p) (set_sampler p)
      else p
  | setFloatValue n v =>
      if String.eqb n "material.shininess"
      then mksettings (set_model p) (Some v) (set_color p) (set_useTexture p) (set_sampler p)
      else p
  | setVec4Value n v =>
      if String.eqb n g_ColorValueName
      then mksettings (set_model p) (set_shininess p) (Some v) (set_useTexture p) (set_sampler p)
      else p
  | setIntValue n v =>
      if String.eqb n g_UseTextureName
      then mksettings (set_model p) (set_shininess p) (set_color p) (Some v) (set_sampler p)
      else p
  | setSampler2DValue n v =>
      if String.eqb n g_TextureValueName
      then mksettings (set_model p) (set_shininess p) (set_color p) (set_useTexture p) (Some v)
      else p
  | _ => p
  end.

(** The draws of a trace, each with what was pushed since the draw before. *)
Fixpoint draw_commands (calls : list call) (pending : settings)
  : list (settings * call) :=
  match calls with
  | [] => []
  | c :: rest =>
      if is_draw c then (pending, c) :: draw_commands rest no_settings
      else draw_commands rest (note c pending)
  end.

(** ** The lookups, as functions of the loaded entries *)

(** The slot [FindTextureSlot] finds in the entries [l], the first of them
    being at [index]; [d] when no tag matches. *)
Fixpoint slot_in (l : list TEXTURE_INFO) (tag : string) (index d : Z) : Z :=
  match l with
  | [] => d
  | e :: r => if String.eqb (tag_of e) tag then index else slot_in r tag (index + 1) d
  end.

(** The identifier [FindTextureID] finds in the entries [l]. *)
Fixpoint id_in (l : list TEXTURE_INFO) (tag : string) (d : Z) : Z :=
  match l with
  | [] => d
  | e :: r => if String.eqb (tag_of e) tag then int_of_uint32 (ID e) else id_in r tag d
  end.

(** No entry of [l] carries the tag. *)
Definition unregistered (tag : string) (l : list TEXTURE_INFO) : Prop :=
  forall e, In e l -> tag_of e <> tag.

Definition unregistered_material (tag : string) (l : list OBJECT_MATERIAL) : Prop :=
  forall m, In m l -> mtag m <> tag.


(** ** Statements about a load, and objects to try them on *)

(** The load of [img] under [tag] succeeds on [this] and the lookups by
    [tag] then give the slot and the name of that very texture. *)
Definition load_then_find (this : SceneManager) (img : stbi_image)
    (textureID : Z) (filename tag : string) : Prop :=
  exists this' calls,
    CreateGLTexture (Some img) textureID filename tag this = Some (true, this', calls) /\
    FindTextureSlot this' tag = Some (m_loadedTextures this) /\
    FindTextureID this' tag = Some textureID.

(** The load is rejected: it returns [false] and leaves the object as it was. *)
Definition load_rejected (this : SceneManager) (image : option stbi_image)
    (textureID : Z) (filename tag : string) : Prop :=
  exists calls,
    CreateGLTexture image textureID filename tag this = Some (false, this, calls).

(** A manager as the constructor leaves it when the indeterminate members
    happen to be zero. *)
Definition new_manager : SceneManager :=
  SceneManager_new (Some 1%positive) 0 (fun _ => 0).

(** A manager with [count] textures loaded, every one of them tagged [tag]
    and named by its slot plus 100. *)
Definition manager_with (count : nat) (tag : string) : SceneManager :=
  {| m_pShaderManager := Some 1%positive;
     m_loadedTextures := Z.of_nat count;
     m_textureIDs :=
       map (fun i => mkTEXTURE_INFO tag (Z.of_nat i + 100)) (seq 0 count) ++
       map (fun i => mkTEXTURE_INFO EmptyString 0) (seq count (16 - count));
     m_objectMaterials := [] |}.

Definition rgb_image : stbi_image := mkstbi_image 64 64 3.
Definition gray_image : stbi_image := mkstbi_image 64 64 1.

(** ** The calls of the setters and the draws of a frame *)

(** What [SetShaderMaterial] pushes for the material [FindMaterial] found. *)
Definition material_calls (found : option OBJECT_MATERIAL) : list call :=
  match found with
  | Some material =>
      [ setVec3Value "material.ambientColor" (ambientColor material);
        setFloatValue "material.ambientStrength" (ambientStrength material);
        setVec3Value "material.diffuseColor" (diffuseColor material);
        setVec3Value "material.specularColor" (specularColor material);
        setFloatValue "material.shininess" (shininess material) ]
  | None => []
  end.

(** The object drawn with a colour: its transform, the colour and the
    use-texture flag off; no material and no sampler of its own. *)
Definition colored (scaleXYZ : vec3) (X Y Z : R) (positionXYZ : vec3)
    (r g b a : R) (mesh : call) : settings * call :=
  (mksettings (Some (modelView scaleXYZ X Y Z positionXYZ)) None
              (Some (mkvec4 r g b a)) (Some 0) None,
   mesh).

(** The eight draws of a frame, in order: floor, mug body, mug rim, mug
    handle, notebook, pen, laptop base, laptop screen.  [slot] is what the
    lookup of the texture "wood" gives, [wood] and [white] what the lookups
    of the two materials give. *)
Definition scene_draws (slot : Z) (wood white : option OBJECT_MATERIAL)
  : list (settings * call) :=
  [ (* floor *)
    (mksettings (Some (modelView (mkvec3 20.0 1.0 10.0) 0.0 0.0 0.0 (mkvec3 0.0 0.0 0.0)))
                (option_map shininess wood) None (Some 1) (Some slot),
     DrawPlaneMesh);
    (* mug body *)
    (mksettings (Some (modelView (mkvec3 0.75 1.125 0.75) 0.0 0.0 0.0 (mkvec3 8.0 0.5625 0.0)))
                (option_map shininess white) (Some (mkvec4 1.0 1.0 1.0 1.0)) (Some 0) None,
     DrawCylinderMesh);
    (* mug rim *)
    colored (mkvec3 0.375 0.375 0.0375) 90.0 0.0 0.0 (mkvec3 8.0 1.125 0.0)
            1.0 1.0 1.0 1.0 DrawTorusMesh;
    (* mug handle *)
    colored (mkvec3 0.3 0.3 0.075) 0.0 0.0 90.0 (mkvec3 8.75 0.85 0.0)
            1.0 1.0 1.0 1.0 DrawTorusMesh;
    (* notebook *)
    colored (mkvec3 3.0 0.2 2.0) 0.0 15.0 0.0 (mkvec3 (-3.0) 0.2 1.0)
            0.1 0.1 0.4 1.0 DrawPlaneMesh;
    (* pen *)
    colored (mkvec3 0.1 2.0 0.1) 90.0 15.0 0.0 (mkvec3 (-2.8) 0.5 1.7)
            1.0 0.0 0.0 1.0 DrawCylinderMesh;
    (* laptop base *)
    colored (mkvec3 3.0 0.05 2.0) 0.0 (-10.0) 0.0 (mkvec3 3.0 0.075 (-2.0))
            0.75 0.75 0.75 1.0 DrawPlaneMesh;
    (* laptop screen *)
    colored (mkvec3 3.0 2.0 1.0) (-100.0) 0.0 0.0 (mkvec3 3.0 1.15 (-2.95))
            0.2 0.2 0.2 1.0 DrawPlaneMesh ].

(** The statics after a run of the render loop: a call without a window
    leaves them as they are.  (The wheel is not turned during the run:
    [scroll_callback] would add to [cameraPos] between two calls.) *)
Fixpoint statics_after (frames : list (option GLFWwindow)) (s : statics) : statics :=
  match frames with
  | [] => s
  | None :: frames' => statics_after frames' s
  | Some w :: frames' => statics_after frames' (handle_input w s)
  end.

(** ** Statements about the setters and the frame *)

(** After the setter [m] the use-texture flag of the shader is off,
    whatever it was before: the next draw samples no texture. *)
Definition untextured_after (m : M unit) (this : SceneManager) : Prop :=
  exists calls,
    m this = Some (tt, this, calls) /\
    forall current, int_uniform g_UseTextureName calls current = Some 0.

(** The meshes of the eight draws, in order. *)
Definition scene_meshes : list call :=
  [ DrawPlaneMesh; DrawCylinderMesh; DrawTorusMesh; DrawTorusMesh;
    DrawPlaneMesh; DrawCylinderMesh; DrawPlaneMesh; DrawPlaneMesh ].

(** The call of [RenderScene] issues the eight draws. *)
Definition draws_scene (window : option GLFWwindow) (s : statics)
    (this : SceneManager) : Prop :=
  exists s' calls,
    RenderScene window s this = Some (s', this, calls) /\
    map snd (draw_commands calls no_settings) = scene_meshes.

(** A draw has its own transform, a material or a colour, and a texture
    choice (the use-texture flag) among what was pushed since the draw
    before. *)
Definition fully_set (d : settings * call) : bool :=
  match set_model (fst d), set_useTexture (fst d) with
  | Some _, Some _ =>
      match set_shininess (fst d), set_color (fst d) with
      | None, None => false
      | _, _ => true
      end
  | _, _ => false
  end.

(** [stbi_load] gave an image that [CreateGLTexture] accepts. *)
Definition accepted (image : option stbi_image) : bool :=
  match image with
  | Some img => (colorChannels img =? 3) || (colorChannels img =? 4)
  | None => false
  end.

(** A window with the cursor at (x, y), the clock at [t] and every key
    pressed or every key released. *)
Definition window_at (x y t : R) (pressed : bool) : GLFWwindow :=
  mkGLFWwindow t x y (fun _ => pressed).

(** The manager after the scene build on [new_manager] when wood.jpg
    decodes with three channels and glGenTextures hands out the name 1. *)
Definition built_manager : SceneManager :=
  {| m_pShaderManager := Some 1%positive;
     m_loadedTextures := 1;
     m_textureIDs :=
       mkTEXTURE_INFO "wood" 1 :: map (fun i => mkTEXTURE_INFO EmptyString 0) (seq 1 15);
     m_objectMaterials := [woodMaterial; whiteMaterial] |}.

(** [PrepareScene()] called [n] times in a row on the same manager, every
    call given the same image and texture name. *)
Fixpoint PrepareScene_times (n : nat) (image : option stbi_image) (textureID : Z)
  : M unit :=
  match n with
  | O => ret tt
  | S n' => PrepareScene image textureID ;; PrepareScene_times n' image textureID
  end.

(** The number of loaded textures a method leaves, when it returns. *)
Definition count_after {A} (r : option (A * SceneManager * list call)) : option Z :=
  match r with
  | Some (_, this, _) => Some (m_loadedTextures this)
  | None => None
  end.

(** ** The mouse handling of RenderScene in binary32 *)

(** Lines 469-488 of [RenderScene] once more, now with [float] as IEEE 754
    binary32 and [double] as binary64 ([spec_float] of the Standard
    Library: signed zeros, infinities, NaN and rounding to nearest even),
    for the properties that must hold for every cursor reading: a reading
    outside the range of [float] converts to an infinity, and the
    difference of two equal infinities is a NaN.  Every operation rounds
    once, to binary32.  These lines are run by every call of
    [RenderScene] that has a window, a call without one returns before
    them, and nothing else writes the statics they write
    ([scroll_callback] writes [cameraPos] only). *)
Module F32.

Definition prec : Z := 24.
Definition emax : Z := 128.

Definition add : spec_float -> spec_float -> spec_float := SFadd prec emax.
Definition sub : spec_float -> spec_float -> spec_float := SFsub prec emax.
Definition mul : spec_float -> spec_float -> spec_float := SFmul prec emax.
Definition ltb : spec_float -> spec_float -> bool := SFltb.
Definition leb : spec_float -> spec_float -> bool := SFleb.

(** [static_cast<float>(x)] of a [double]: rounded to nearest even, to an
    infinity beyond the largest [float]. *)
Definition of_double (x : spec_float) : spec_float :=
  match x with
  | S754_finite s m e => binary_normalize prec emax (cond_Zopp s (Zpos m)) e s
  | _ => x
  end.

(** The [double] and the [float] of an integer. *)
Definition double_of_Z (n : Z) : spec_float := binary_normalize 53 1024 n 0 false.
Definition float_of_Z (n : Z) : spec_float := binary_normalize prec emax n 0 false.

(** The literals of the source. *)
Definition f_0_1 : spec_float := S754_finite false 13421773 (-27).     (* 0.1f *)
Definition f_89 : spec_float := S754_finite false 11665408 (-17).      (* 89.0f *)
Definition f_m89 : spec_float := S754_finite true 11665408 (-17).      (* -89.0f *)
Definition f_m90 : spec_float := S754_finite true 11796480 (-17).      (* -90.0f *)
Definition f_0 : spec_float := S754_zero false.                        (* 0.0f *)
Definition f_400 : spec_float := S754_finite false 13107200 (-15).     (* 400.0f *)
Definition f_300 : spec_float := S754_finite false 9830400 (-15).      (* 300.0f *)

(** glm::max(x, y) = (x < y) ? y : x;  glm::min(x, y) = (y < x) ? y : x;
    glm::clamp(x, minVal, maxVal) = min(max(x, minVal), maxVal). *)
Definition max (x y : spec_float) : spec_float := if ltb x y then y else x.
Definition min (x y : spec_float) : spec_float := if ltb y x then y else x.
Definition clamp (x minVal maxVal : spec_float) : spec_float :=
  min (max x minVal) maxVal.

(** Zero or finite: neither an infinity nor a NaN. *)
Definition is_finite (f : spec_float) : bool :=
  match f with
  | S754_zero _ | S754_finite _ _ _ => true
  | _ => false
  end.

(** What [glfwGetCursorPos] writes: two [double]s. *)
Record cursor := mkcursor { xpos : spec_float; ypos : spec_float }.

(** The statics that the mouse handling reads and writes. *)
Record statics := mkstatics {
  yaw : spec_float;
  pitch : spec_float;
  lastX : spec_float;
  lastY : spec_float;
  firstMouse : bool
}.

(** Their initializers. *)
Definition statics_init : statics :=
  {| yaw := f_m90; pitch := f_0; lastX := f_400; lastY := f_300;
     firstMouse := true |}.

Definition sensitivity : spec_float := f_0_1.

(** The pitch before the clamp: [pitch + (lastY - ypos) * sensitivity],
    after the seeding of the first sample. *)
Definition pitch_sum (c : cursor) (s : statics) : spec_float :=
  let lastY0 := if firstMouse s then of_double (ypos c) else lastY s in
  add (pitch s) (mul (sub lastY0 (of_double (ypos c))) sensitivity).

(** The statics after the mouse handling of one call with a window. *)
Definition mouse_input (c : cursor) (s : statics) : statics :=
  (* if (firstMouse) { lastX = xpos; lastY = ypos; firstMouse = false; } *)
  let lastX0 := if firstMouse s then of_double (xpos c) else lastX s in
  let xoffset := mul (sub (of_double (xpos c)) lastX0) sensitivity in
  let yaw' := add (yaw s) xoffset in
  let pitch' := clamp (pitch_sum c s) f_m89 f_89 in
  {| yaw := yaw';
     pitch := pitch';
     lastX := of_double (xpos c);
     lastY := of_double (ypos c);
     firstMouse := false |}.

(** The statics after a run of calls of [RenderScene], each with the cursor
    it reads, or [None] when it has no window. *)
Fixpoint statics_after (frames : list (option cursor)) (s : statics) : statics :=
  match frames with
  | [] => s
  | None :: frames' => statics_after frames' s
  | Some c :: frames' => statics_after frames' (mouse_input c s)
  end.

(** Both coordinates of the reading convert to a finite [float]. *)
Definition finite_reading (frame : option cursor) : Prop :=
  match frame with
  | None => True
  | Some c =>
      is_finite (of_double (xpos c)) = true /\ is_finite (of_double (ypos c)) = true
  end.

(** The pitch is within [-89, 89]: [-89.0f <= pitch && pitch <= 89.0f]. *)
Definition pitch_in_range (s : statics) : Prop :=
  leb f_m89 (pitch s) = true /\ leb (pitch s) f_89 = true.

(** The cursor at (x, y), both integers. *)
Definition cursor_at (x y : Z) : cursor := mkcursor (double_of_Z x) (double_of_Z y).

End F32.

(** ** Further readings of a trace, and the calls of the loops *)

(** What [BindGLTextures] calls for the entries [l], the first of them
    being bound to the unit [i]. *)
Fixpoint bind_calls (l : list TEXTURE_INFO) (i : Z) : list call :=
  match l with
  | [] => []
  | e :: r =>
      glActiveTexture i :: glBindTexture GL_TEXTURE_2D (ID e) :: bind_calls r (i + 1)
  end.

(** What [DestroyGLTextures] calls for the entries [l]. *)
Definition destroy_calls (l : list TEXTURE_INFO) : list call :=
  map (fun e => glDeleteTextures 1 (ID e)) l.

(** Modelled from the spec: as [int_uniform], for a vec3 parameter. *)
Fixpoint vec3_uniform (name : string) (calls : list call) (current : option vec3)
  : option vec3 :=
  match calls with
  | [] => current
  | setVec3Value n v :: rest =>
      vec3_uniform name rest (if String.eqb n name then Some v else current)
  | _ :: rest => vec3_uniform name rest current
  end.

(** Modelled from the spec: as [int_uniform], for a float parameter. *)
Fixpoint float_uniform (name : string) (calls : list call) (current : option R)
  : option R :=
  match calls with
  | [] => current
  | setFloatValue n v :: rest =>
      float_uniform name rest (if String.eqb n name then Some v else current)
  | _ :: rest => float_uniform name rest current
  end.

(** The texture bound to GL_TEXTURE_2D after the calls: the one of the
    last glBindTexture. *)
Fixpoint bound_texture (calls : list call) (current : option Z) : option Z :=
  match calls with
  | [] => current
  | glBindTexture GL_TEXTURE_2D texture :: rest => bound_texture rest (Some texture)
  | _ :: rest => bound_texture rest current
  end.

Definition is_image_free (c : call) : bool :=
  match c with stbi_image_free => true | _ => false end.

Definition is_gl_call (c : call) : bool :=
  match c with
  | glGenTextures _ _ | glBindTexture _ _ | glTexParameteri _ _ _
  | glTexImage2D _ _ _ _ _ _ _ _ | glGenerateMipmap _ | glActiveTexture _
  | glDeleteTextures _ _ | glClearColor _ _ _ _ | glClear => true
  | _ => false
  end.

Definition is_error_wood (c : call) : bool :=
  match c with cout msg_error_wood => true | _ => false end.

Definition GLFW_KEY_eqb (a b : GLFW_KEY) : bool :=
  match a, b with
  | GLFW_KEY_W, GLFW_KEY_W | GLFW_KEY_S, GLFW_KEY_S
  | GLFW_KEY_A, GLFW_KEY_A | GLFW_KEY_D, GLFW_KEY_D
  | GLFW_KEY_Q, GLFW_KEY_Q | GLFW_KEY_E, GLFW_KEY_E
  | GLFW_KEY_P, GLFW_KEY_P | GLFW_KEY_O, GLFW_KEY_O => true
  | _, _ => false
  end.

(** A window with the cursor at (x, y), the clock at [t] and exactly the
    keys of [keys] pressed. *)
Definition window_keys (x y t : R) (keys : list GLFW_KEY) : GLFWwindow :=
  mkGLFWwindow t x y (fun k => existsb (GLFW_KEY_eqb k) keys).

(** A manager without a shader manager, with two textures and the two
    materials of the scene. *)
Definition detached_manager : SceneManager :=
  {| m_pShaderManager := None;
     m_loadedTextures := 2;
     m_textureIDs :=
       mkTEXTURE_INFO "wood" 7 :: mkTEXTURE_INFO "tile" 8 ::
       map (fun i => mkTEXTURE_INFO EmptyString 0) (seq 2 14);
     m_objectMaterials := [woodMaterial; whiteMaterial] |}.

(** A manager with a shader manager, the textures "wood" (name 7), "tile"
    (name 8) and "wood" again (name 9), and the two materials. *)
Definition scene_manager : SceneManager :=
  {| m_pShaderManager := Some 1%positive;
     m_loadedTextures := 3;
     m_textureIDs :=
       mkTEXTURE_INFO "wood" 7 :: mkTEXTURE_INFO "tile" 8 :: mkTEXTURE_INFO "wood" 9 ::
       map (fun i => mkTEXTURE_INFO EmptyString 0) (seq 3 13);
     m_objectMaterials := [woodMaterial; whiteMaterial] |}.

(** A row of calls of [CreateGLTexture(filename, tag)], one for each item
    in turn, the result of each call being dropped; every file decodes to
    [img] and glGenTextures hands out the name given with the item. *)
Fixpoint load_all (img : stbi_image) (items : list (string * string * Z)) : M unit :=
  match items with
  | [] => ret tt
  | (filename, tag, textureID) :: rest =>
      _ <- CreateGLTexture (Some img) textureID filename tag ;;
      load_all img rest
  end.

(** The entry a load of the item stores. *)
Definition entry_of (item : string * string * Z) : TEXTURE_INFO :=
  mkTEXTURE_INFO (snd (fst item)) (snd item).

(** The name of the shader parameter a call pushes. *)
Definition uniform_name (c : call) : option string :=
  match c with
  | setMat4Value n _ | setIntValue n _ | setVec4Value n _ | setVec3Value n _
  | setVec2Value n _ | setFloatValue n _ | setSampler2DValue n _ => Some n
  | _ => None
  end.

(** The call pushes the position or the direction of the spot light. *)
Definition is_spot_camera (c : call) : bool :=
  match uniform_name c with
  | Some n => String.eqb n "spotLight.position" || String.eqb n "spotLight.direction"
  | None => false
  end.

(** No string occurs twice in the list. *)
Fixpoint distinct (l : list string) : bool :=
  match l with
  | [] => true
  | n :: r => negb (existsb (String.eqb n) r) && distinct r
  end.

(** The names pushed by the calls, in order. *)
Fixpoint pushed_names (calls : list call) : list string :=
  match calls with
  | [] => []
  | c :: rest =>
      match uniform_name c with
      | Some n => n :: pushed_names rest
      | None => pushed_names rest
      end
  end.
(** * Properties *)

(** ** The array of texture entries *)

Lemma length_list_set a n e : List.length (list_set a n e) = List.length a.
Proof.
  revert n; induction a as [|h r IH]; intros [|n]; simpl; auto.
Qed.

Lemma list_set_twice a n e1 e2 : list_set (list_set a n e1) n e2 = list_set a n e2.
Proof.
  revert n; induction a as [|h r IH]; intros [|n]; simpl; auto.
  now rewrite IH.
Qed.

Lemma firstn_list_set a n e : firstn n (list_set a n e) = firstn n a.
Proof.
  revert n; induction a as [|h r IH]; intros [|n]; simpl; auto.
  now rewrite IH.
Qed.

Lemma firstn_succ_list_set a n e :
  (n < List.length a)%nat -> firstn (S n) (list_set a n e) = firstn n a ++ [e].
Proof.
  revert n; induction a as [|h r IH]; intros [|n] Hn; simpl in *; try lia; auto.
  rewrite <- IH by lia. reflexivity.
Qed.

Lemma In_firstn {A} n : forall (l : list A) x, In x (firstn n l) -> In x l.
Proof.
  induction n as [|n IH]; intros [|h r] x H; simpl in *; auto.
  - contradiction.
  - destruct H as [H|H]; auto.
Qed.

Lemma skipn_nth_error {A} (a : list A) k e :
  nth_error a k = Some e -> skipn k a = e :: skipn (S k) a.
Proof.
  revert k; induction a as [|h r IH]; intros [|k] H; simpl in *; try discriminate.
  - now inversion H.
  - now apply IH.
Qed.

Lemma array_get_in_range a i :
  0 <= i < 16 -> (Z.to_nat i < List.length a)%nat ->
  exists e, array_get a i = Some e /\ nth_error a (Z.to_nat i) = Some e.
Proof.
  intros Hi Hlen. unfold array_get, TEXTURE_SLOTS.
  replace ((0 <=? i) && (i <? 16)) with true
    by (symmetry; apply andb_true_iff; split; [apply Z.leb_le | apply Z.ltb_lt]; lia).
  destruct (nth_error a (Z.to_nat i)) as [e|] eqn:E.
  - now exists e.
  - apply nth_error_None in E. lia.
Qed.

Lemma array_get_out_of_range a i : ~ (0 <= i < 16) -> array_get a i = None.
Proof.
  intros Hi. unfold array_get, TEXTURE_SLOTS.
  destruct (0 <=? i) eqn:E1; destruct (i <? 16) eqn:E2; simpl; auto.
  apply Z.leb_le in E1. apply Z.ltb_lt in E2. lia.
Qed.

Lemma array_set_in_range a i e :
  0 <= i < 16 -> array_set a i e = Some (list_set a (Z.to_nat i) e).
Proof.
  intros Hi. unfold array_set, TEXTURE_SLOTS.
  replace ((0 <=? i) && (i <? 16)) with true
    by (symmetry; apply andb_true_iff; split; [apply Z.leb_le | apply Z.ltb_lt]; lia).
  reflexivity.
Qed.


Lemma FindTextureSlot_while_slot_in n : forall a tag index d,
  0 <= index -> index + Z.of_nat n <= 16 ->
  (Z.to_nat index + n <= List.length a)%nat ->
  FindTextureSlot_while n a tag index d =
  Some (slot_in (firstn n (skipn (Z.to_nat index) a)) tag index d).
Proof.
  induction n as [|n IH]; intros a tag index d H0 H16 Hlen; simpl.
  - reflexivity.
  - destruct (array_get_in_range a index) as (e & Hget & Hnth); try lia.
    rewrite Hget, (skipn_nth_error _ _ _ Hnth). simpl.
    destruct (String.eqb (tag_of e) tag); auto.
    rewrite IH by lia.
    replace (Z.to_nat (index + 1)) with (S (Z.to_nat index)) by lia.
    reflexivity.
Qed.

Lemma FindTextureID_while_id_in n : forall a tag index d,
  0 <= index -> index + Z.of_nat n <= 16 ->
  (Z.to_nat index + n <= List.length a)%nat ->
  FindTextureID_while n a tag index d =
  Some (id_in (firstn n (skipn (Z.to_nat index) a)) tag d).
Proof.
  induction n as [|n IH]; intros a tag index d H0 H16 Hlen; simpl.
  - reflexivity.
  - destruct (array_get_in_range a index) as (e & Hget & Hnth); try lia.
    rewrite Hget, (skipn_nth_error _ _ _ Hnth). simpl.
    destruct (String.eqb (tag_of e) tag); auto.
    rewrite IH by lia.
    replace (Z.to_nat (index + 1)) with (S (Z.to_nat index)) by lia.
    reflexivity.
Qed.

Lemma FindTextureSlot_loaded this tag :
  array_ok this -> m_loadedTextures this <= 16 ->
  FindTextureSlot this tag = Some (slot_in (loaded this) tag 0 (-1)).
Proof.
  intros Hok Hn. unfold FindTextureSlot, loaded, array_ok in *.
  rewrite FindTextureSlot_while_slot_in by lia. reflexivity.
Qed.

Lemma FindTextureID_loaded this tag :
  array_ok this -> m_loadedTextures this <= 16 ->
  FindTextureID this tag = Some (id_in (loaded this) tag (-1)).
Proof.
  intros Hok Hn. unfold FindTextureID, loaded, array_ok in *.
  rewrite FindTextureID_while_id_in by lia. reflexivity.
Qed.


Lemma slot_in_unregistered l tag : forall index d,
  unregistered tag l -> slot_in l tag index d = d.
Proof.
  induction l as [|e r IH]; intros index d H; simpl; auto.
  destruct (String.eqb_spec (tag_of e) tag) as [E|E].
  - exfalso. apply (H e); simpl; auto.
  - apply IH. intros e' He'. apply H. simpl; auto.
Qed.

Lemma id_in_unregistered l tag d : unregistered tag l -> id_in l tag d = d.
Proof.
  induction l as [|e r IH]; intros H; simpl; auto.
  destruct (String.eqb_spec (tag_of e) tag) as [E|E].
  - exfalso. apply (H e); simpl; auto.
  - apply IH. intros e' He'. apply H. simpl; auto.
Qed.

Lemma slot_in_first before : forall e after tag index d,
  unregistered tag before -> tag_of e = tag ->
  slot_in (before ++ e :: after) tag index d = index + Z.of_nat (List.length before).
Proof.
  induction before as [|b r IH]; intros e after tag index d Hb He; simpl.
  - rewrite He, String.eqb_refl. lia.
  - destruct (String.eqb_spec (tag_of b) tag) as [E|E].
    + exfalso. apply (Hb b); simpl; auto.
    + rewrite IH; auto; [lia|]. intros e' He'. apply Hb. simpl; auto.
Qed.

Lemma id_in_first before : forall e after tag d,
  unregistered tag before -> tag_of e = tag ->
  id_in (before ++ e :: after) tag d = int_of_uint32 (ID e).
Proof.
  induction before as [|b r IH]; intros e after tag d Hb He; simpl.
  - now rewrite He, String.eqb_refl.
  - destruct (String.eqb_spec (tag_of b) tag) as [E|E].
    + exfalso. apply (Hb b); simpl; auto.
    + apply IH; auto. intros e' He'. apply Hb. simpl; auto.
Qed.

Lemma FindMaterial_while_unregistered l tag :
  unregistered_material tag l -> FindMaterial_while l tag = None.
Proof.
  induction l as [|m r IH]; intros H; simpl; auto.
  destruct (String.eqb_spec (mtag m) tag) as [E|E].
  - exfalso. apply (H m); simpl; auto.
  - apply IH. intros m' Hm'. apply H. simpl; auto.
Qed.

Lemma FindMaterial_while_first before : forall m after tag,
  unregistered_material tag before -> mtag m = tag ->
  FindMaterial_while (before ++ m :: after) tag = Some m.
Proof.
  induction before as [|b r IH]; intros m after tag Hb Hm; simpl.
  - now rewrite Hm, String.eqb_refl.
  - destruct (String.eqb_spec (mtag b) tag) as [E|E].
    + exfalso. apply (Hb b); simpl; auto.
    + apply IH; auto. intros m' Hm'. apply Hb. simpl; auto.
Qed.

(** ** Running a method *)

Lemma bind_runs {A B} (m : M A) (f : A -> M B) this a this1 calls1 b this2 calls2 :
  m this = Some (a, this1, calls1) ->
  f a this1 = Some (b, this2, calls2) ->
  bind m f this = Some (b, this2, calls1 ++ calls2).
Proof.
  intros Hm Hf. unfold bind. now rewrite Hm, Hf.
Qed.

Lemma bind_undefined {A B} (m : M A) (f : A -> M B) this :
  m this = None -> bind m f this = None.
Proof.
  intros Hm. unfold bind. now rewrite Hm.
Qed.

Lemma bind_then_undefined {A B} (m : M A) (f : A -> M B) this a this1 calls1 :
  m this = Some (a, this1, calls1) -> f a this1 = None -> bind m f this = None.
Proof.
  intros Hm Hf. unfold bind. now rewrite Hm, Hf.
Qed.

Lemma emit_runs c this : emit c this = Some (tt, this, [c]).
Proof. reflexivity. Qed.

Lemma ret_runs {A} (a : A) this : ret a this = Some (a, this, []).
Proof. reflexivity. Qed.

Lemma get_runs this : get this = Some (this, this, []).
Proof. reflexivity. Qed.

(** ** Loading a texture *)

(** The object after a load has stored [{tag, textureID}] at the slot
    [m_loadedTextures] and counted it. *)
Lemma CreateGLTexture_stores this img textureID filename tag :
  array_ok this ->
  0 <= m_loadedTextures this < 16 ->
  colorChannels img = 3 \/ colorChannels img = 4 ->
  exists calls,
    CreateGLTexture (Some img) textureID filename tag this =
    Some (true,
          {| m_pShaderManager := m_pShaderManager this;
             m_loadedTextures := m_loadedTextures this + 1;
             m_textureIDs := list_set (m_textureIDs this)
                               (Z.to_nat (m_loadedTextures this))
                               (mkTEXTURE_INFO tag textureID);
             m_objectMaterials := m_objectMaterials this |},
          calls).
Proof.
  intros Hok Hn Hc. unfold array_ok in Hok.
  destruct (array_get_in_range (m_textureIDs this) (m_loadedTextures this))
    as (e & Hget & _); try lia.
  assert (Hup : exists c,
    (if colorChannels img =? 3
     then emit (glTexImage2D GL_TEXTURE_2D 0 GL_RGB8 (width img) (height img) 0
                             GL_RGB GL_UNSIGNED_BYTE) ;; ret true
     else if colorChannels img =? 4
     then emit (glTexImage2D GL_TEXTURE_2D 0 GL_RGBA8 (width img) (height img) 0
                             GL_RGBA GL_UNSIGNED_BYTE) ;; ret true
     else emit (cout (msg_channels (colorChannels img))) ;; ret false) this
    = Some (true, this, c)).
  { destruct Hc as [Hc|Hc]; rewrite Hc; simpl; eexists; reflexivity. }
  destruct Hup as (c & Hup).
  eexists. unfold CreateGLTexture.
  do 9 (eapply bind_runs; [apply emit_runs | cbv beta]).
  eapply bind_runs; [exact Hup | cbv beta iota].
  do 3 (eapply bind_runs; [apply emit_runs | cbv beta]).
  eapply bind_runs; [apply get_runs | cbv beta].
  rewrite Hget. simpl lift.
  eapply bind_runs; [apply ret_runs | cbv beta].
  rewrite array_set_in_range by lia. simpl lift.
  eapply bind_runs; [apply ret_runs | cbv beta].
  rewrite array_set_in_range by lia. simpl lift.
  eapply bind_runs; [apply ret_runs | cbv beta].
  rewrite list_set_twice.
  eapply bind_runs; [reflexivity | apply ret_runs].
Qed.

Lemma CreateGLTexture_other_channels this img textureID filename tag :
  colorChannels img <> 3 -> colorChannels img <> 4 ->
  load_rejected this (Some img) textureID filename tag.
Proof.
  intros H3 H4. unfold load_rejected, CreateGLTexture.
  apply Z.eqb_neq in H3. apply Z.eqb_neq in H4.
  eexists.
  do 9 (eapply bind_runs; [apply emit_runs | cbv beta]).
  rewrite H3, H4.
  eapply bind_runs.
  - eapply bind_runs; [apply emit_runs | apply ret_runs].
  - apply ret_runs.
Qed.

Lemma CreateGLTexture_not_decoded this textureID filename tag :
  load_rejected this None textureID filename tag.
Proof.
  unfold load_rejected, CreateGLTexture. eexists.
  do 3 (eapply bind_runs; [apply emit_runs | cbv beta]).
  apply ret_runs.
Qed.

Lemma CreateGLTexture_outside_array this img textureID filename tag :
  ~ (0 <= m_loadedTextures this < 16) ->
  colorChannels img = 3 \/ colorChannels img = 4 ->
  CreateGLTexture (Some img) textureID filename tag this = None.
Proof.
  intros Hn Hc. unfold CreateGLTexture.
  assert (Hup : exists c,
    (if colorChannels img =? 3
     then emit (glTexImage2D GL_TEXTURE_2D 0 GL_RGB8 (width img) (height img) 0
                             GL_RGB GL_UNSIGNED_BYTE) ;; ret true
     else if colorChannels img =? 4
     then emit (glTexImage2D GL_TEXTURE_2D 0 GL_RGBA8 (width img) (height img) 0
                             GL_RGBA GL_UNSIGNED_BYTE) ;; ret true
     else emit (cout (msg_channels (colorChannels img))) ;; ret false) this
    = Some (true, this, c)).
  { destruct Hc as [Hc|Hc]; rewrite Hc; simpl; eexists; reflexivity. }
  destruct Hup as (c & Hup).
  do 9 (eapply bind_then_undefined; [apply emit_runs | cbv beta]).
  eapply bind_then_undefined; [exact Hup | cbv beta iota].
  do 3 (eapply bind_then_undefined; [apply emit_runs | cbv beta]).
  eapply bind_then_undefined; [apply get_runs | cbv beta].
  rewrite array_get_out_of_range by exact Hn.
  reflexivity.
Qed.

Lemma loaded_after_store this tag textureID :
  array_ok this -> 0 <= m_loadedTextures this < 16 ->
  loaded {| m_pShaderManager := m_pShaderManager this;
            m_loadedTextures := m_loadedTextures this + 1;
            m_textureIDs := list_set (m_textureIDs this)
                              (Z.to_nat (m_loadedTextures this))
                              (mkTEXTURE_INFO tag textureID);
            m_objectMaterials := m_objectMaterials this |}
  = loaded this ++ [mkTEXTURE_INFO tag textureID].
Proof.
  intros Hok Hn. unfold loaded, array_ok in *. simpl.
  replace (Z.to_nat (m_loadedTextures this + 1))
    with (S (Z.to_nat (m_loadedTextures this))) by lia.
  apply firstn_succ_list_set. lia.
Qed.

Lemma length_loaded this :
  array_ok this -> 0 <= m_loadedTextures this <= 16 ->
  Z.of_nat (List.length (loaded this)) = m_loadedTextures this.
Proof.
  intros Hok Hn. unfold loaded, array_ok in *.
  rewrite length_firstn. lia.
Qed.

Lemma slot_in_app_found l l' tag : forall index,
  0 <= index -> 0 <= slot_in l tag index (-1) ->
  slot_in (l ++ l') tag index (-1) = slot_in l tag index (-1) /\
  id_in (l ++ l') tag (-1) = id_in l tag (-1).
Proof.
  induction l as [|e r IH]; intros index Hi Hfound; simpl in *.
  - lia.
  - destruct (String.eqb (tag_of e) tag); auto.
    apply IH; auto. lia.
Qed.

(** A load under a tag not registered before: the object afterwards and
    what the slot lookup then gives. *)
Lemma CreateGLTexture_fresh_tag this img textureID filename tag :
  array_ok this ->
  0 <= m_loadedTextures this < 16 ->
  colorChannels img = 3 \/ colorChannels img = 4 ->
  unregistered tag (loaded this) ->
  exists this' calls,
    CreateGLTexture (Some img) textureID filename tag this = Some (true, this', calls) /\
    m_pShaderManager this' = m_pShaderManager this /\
    m_objectMaterials this' = m_objectMaterials this /\
    array_ok this' /\
    m_loadedTextures this' = m_loadedTextures this + 1 /\
    FindTextureSlot this' tag = Some (m_loadedTextures this).
Proof.
  intros Hok Hn Hc Hnew.
  destruct (CreateGLTexture_stores this img textureID filename tag Hok Hn Hc)
    as (calls & Hrun).
  pose proof (loaded_after_store this tag textureID Hok Hn) as Hloaded.
  pose proof (length_loaded this Hok ltac:(lia)) as Hlen.
  eexists; exists calls. split; [exact Hrun|].
  assert (Hok' : array_ok
    {| m_pShaderManager := m_pShaderManager this;
       m_loadedTextures := m_loadedTextures this + 1;
       m_textureIDs := list_set (m_textureIDs this)
                         (Z.to_nat (m_loadedTextures this))
                         (mkTEXTURE_INFO tag textureID);
       m_objectMaterials := m_objectMaterials this |}).
  { unfold array_ok in *. simpl. now rewrite length_list_set. }
  repeat split; auto.
  rewrite FindTextureSlot_loaded, Hloaded by (auto; simpl; lia).
  rewrite slot_in_first by auto. f_equal; lia.
Qed.

(** ** The texture registry: loading, then looking up *)

(** C2, as stated, fails: with "wood" already loaded in slot 0 (name 100),
    a second image loaded under the tag "wood" (name 9) is stored in slot
    1, but the lookups by "wood" still give slot 0 and name 100. *)
Lemma load_then_find_duplicate_tag :
  ~ load_then_find (manager_with 1 "wood") rgb_image 9 "Debug/wood2.jpg" "wood".
Proof.
  intros (this' & calls & Hload & Hslot & _).
  vm_compute in Hload. inversion Hload; subst this'; clear Hload.
  vm_compute in Hslot. discriminate Hslot.
Qed.

(** C2, amended: when fewer than 16 textures are loaded, an image decoded
    with 3 or 4 channels is loaded with success: the entry {tag, name} is
    appended to the loaded entries and counted, and a lookup by the tag
    gives the first entry registered under it, which is the new slot and
    name when the tag was not registered before and the earlier entry
    otherwise.  An image with any other number of channels is rejected:
    the load returns false and the object (count and array) is unchanged. *)
Theorem CreateGLTexture_registers_or_rejects
    (this : SceneManager) (img : stbi_image) (textureID : Z)
    (filename tag : string) :
  array_ok this ->
  0 <= m_loadedTextures this < 16 ->
  (colorChannels img = 3 \/ colorChannels img = 4 ->
   exists this' calls,
     CreateGLTexture (Some img) textureID filename tag this = Some (true, this', calls) /\
     m_loadedTextures this' = m_loadedTextures this + 1 /\
     loaded this' = loaded this ++ [mkTEXTURE_INFO tag textureID] /\
     (unregistered tag (loaded this) ->
      FindTextureSlot this' tag = Some (m_loadedTextures this) /\
      FindTextureID this' tag = Some (int_of_uint32 textureID)) /\
     (forall slot, 0 <= slot -> FindTextureSlot this tag = Some slot ->
      FindTextureSlot this' tag = Some slot /\
      FindTextureID this' tag = FindTextureID this tag)) /\
  (colorChannels img <> 3 -> colorChannels img <> 4 ->
   load_rejected this (Some img) textureID filename tag).
Proof.
  intros Hok Hn. split.
  - intros Hc.
    destruct (CreateGLTexture_stores this img textureID filename tag Hok Hn Hc)
      as (calls & Hrun).
    pose proof (loaded_after_store this tag textureID Hok Hn) as Hloaded.
    pose proof (length_loaded this Hok ltac:(lia)) as Hlen.
    eexists; exists calls. split; [exact Hrun|].
    split; [reflexivity|]. split; [exact Hloaded|].
    assert (Hok' : array_ok
      {| m_pShaderManager := m_pShaderManager this;
         m_loadedTextures := m_loadedTextures this + 1;
         m_textureIDs := list_set (m_textureIDs this)
                           (Z.to_nat (m_loadedTextures this))
                           (mkTEXTURE_INFO tag textureID);
         m_objectMaterials := m_objectMaterials this |}).
    { unfold array_ok in *. simpl. now rewrite length_list_set. }
    split.
    + intros Hnew.
      rewrite FindTextureSlot_loaded, FindTextureID_loaded, Hloaded
        by (auto; simpl; lia).
      rewrite slot_in_first, id_in_first by auto.
      split; [f_equal; lia | reflexivity].
    + intros slot Hslot Hfind.
      rewrite FindTextureSlot_loaded in Hfind by (auto; lia).
      inversion Hfind as [Hs]; clear Hfind.
      rewrite FindTextureSlot_loaded, !FindTextureID_loaded, Hloaded
        by (auto; simpl; lia).
      destruct (slot_in_app_found (loaded this) [mkTEXTURE_INFO tag textureID] tag 0)
        as (Es & Ei); try lia.
      now rewrite Es, Ei.
  - apply CreateGLTexture_other_channels.
Qed.

Lemma CreateGLTexture_registers_or_rejects_witness :
  array_ok (manager_with 1 "wood") /\
  0 <= m_loadedTextures (manager_with 1 "wood") < 16 /\
  (exists this' calls,
     CreateGLTexture (Some rgb_image) 9 "Debug/tile.jpg" "tile" (manager_with 1 "wood")
     = Some (true, this', calls) /\
     m_loadedTextures this' = 2) /\
  load_rejected (manager_with 1 "wood") (Some gray_image) 9 "Debug/gray.png" "gray".
Proof.
  assert (Hok : array_ok (manager_with 1 "wood")) by reflexivity.
  assert (Hn : 0 <= m_loadedTextures (manager_with 1 "wood") < 16) by (simpl; lia).
  split; [exact Hok|]. split; [exact Hn|]. split.
  - destruct (CreateGLTexture_registers_or_rejects
                (manager_with 1 "wood") rgb_image 9 "Debug/tile.jpg" "tile" Hok Hn)
      as (Hload & _).
    destruct (Hload (or_introl eq_refl)) as (this' & calls & Hrun & Hcount & _).
    exists this', calls. split; [exact Hrun | exact Hcount].
  - apply (CreateGLTexture_registers_or_rejects
             (manager_with 1 "wood") gray_image 9 "Debug/gray.png" "gray" Hok Hn);
      discriminate.
Defined.

(** C3 on the code: with 16 textures loaded, a further load of a good
    image is not rejected; it writes [m_textureIDs[16]], outside the array,
    which is undefined behaviour.  Sixteen scene builds on one manager
    load sixteen textures, and the seventeenth build is such a load. *)
Theorem CreateGLTexture_full_writes_outside
    (this : SceneManager) (img : stbi_image) (textureID : Z)
    (filename tag : string) :
  m_loadedTextures this = 16 ->
  colorChannels img = 3 \/ colorChannels img = 4 ->
  CreateGLTexture (Some img) textureID filename tag this = None /\
  ~ load_rejected this (Some img) textureID filename tag /\
  count_after (PrepareScene_times 16 (Some rgb_image) 1 new_manager) = Some 16 /\
  PrepareScene_times 17 (Some rgb_image) 1 new_manager = None.
Proof.
  intros Hn Hc.
  assert (H : CreateGLTexture (Some img) textureID filename tag this = None)
    by (apply CreateGLTexture_outside_array; [lia | exact Hc]).
  split; [exact H|].
  split; [|split; reflexivity].
  intros (calls & Hrun). rewrite H in Hrun. discriminate Hrun.
Qed.

Lemma CreateGLTexture_full_writes_outside_witness :
  m_loadedTextures (manager_with 16 "t") = 16 /\
  CreateGLTexture (Some rgb_image) 17 "Debug/seventeen.jpg" "t17" (manager_with 16 "t")
  = None.
Proof.
  split; [reflexivity|].
  exact (proj1 (CreateGLTexture_full_writes_outside
           (manager_with 16 "t") rgb_image 17 "Debug/seventeen.jpg" "t17" eq_refl
           (or_introl eq_refl))).
Defined.

(** ** The lookups *)

(** C5: a tag never registered is not found by the texture-slot lookup
    (-1), by the texture-name lookup (-1) and by the material lookup
    (false, the material left as it was); and when a tag is registered,
    however many times, the lookups give the first entry registered under
    it: its slot, its name and the material itself. *)
Theorem lookups_first_match
    (this : SceneManager) (tag : string) (material : OBJECT_MATERIAL) :
  array_ok this ->
  m_loadedTextures this <= 16 ->
  (unregistered tag (loaded this) ->
   FindTextureSlot this tag = Some (-1) /\ FindTextureID this tag = Some (-1)) /\
  (unregistered_material tag (m_objectMaterials this) ->
   FindMaterial this tag material = (false, material)) /\
  (forall before e after,
     loaded this = before ++ e :: after ->
     unregistered tag before -> tag_of e = tag ->
     FindTextureSlot this tag = Some (Z.of_nat (List.length before)) /\
     FindTextureID this tag = Some (int_of_uint32 (ID e))) /\
  (forall before m after,
     m_objectMaterials this = before ++ m :: after ->
     unregistered_material tag before -> mtag m = tag ->
     FindMaterial this tag material = (true, m)).
Proof.
  intros Hok Hn.
  rewrite FindTextureSlot_loaded, FindTextureID_loaded by auto.
  split; [|split; [|split]].
  - intros Hnone.
    now rewrite slot_in_unregistered, id_in_unregistered.
  - intros Hnone. unfold FindMaterial.
    rewrite FindMaterial_while_unregistered by auto.
    now destruct (m_objectMaterials this).
  - intros before e after Hl Hb Ht. rewrite Hl.
    now rewrite slot_in_first, id_in_first.
  - intros before m after Hm Hb Ht. unfold FindMaterial.
    rewrite Hm, FindMaterial_while_first by auto.
    now destruct before.
Qed.

Lemma lookups_first_match_witness :
  array_ok (manager_with 3 "dup") /\
  m_loadedTextures (manager_with 3 "dup") <= 16 /\
  FindTextureSlot (manager_with 3 "dup") "dup" = Some 0 /\
  FindTextureSlot (manager_with 3 "dup") "other" = Some (-1).
Proof.
  assert (Hok : array_ok (manager_with 3 "dup")) by reflexivity.
  assert (Hn : m_loadedTextures (manager_with 3 "dup") <= 16) by (simpl; lia).
  split; [exact Hok|]. split; [exact Hn|].
  destruct (lookups_first_match (manager_with 3 "dup") "dup" unassigned_material Hok Hn)
    as (_ & _ & Hfirst & _).
  destruct (lookups_first_match (manager_with 3 "dup") "other" unassigned_material Hok Hn)
    as (Hnone & _).
  split.
  - apply (Hfirst [] (mkTEXTURE_INFO "dup" 100)
                  [mkTEXTURE_INFO "dup" 101; mkTEXTURE_INFO "dup" 102]);
      [reflexivity | intros e [] | reflexivity].
  - apply Hnone. intros e He. vm_compute in He.
    destruct He as [<-|[<-|[<-|[]]]]; discriminate.
Defined.

(** ** The setters, with a shader manager attached *)

Section Attached.

Variable this : SceneManager.
Variable p : positive.
Hypothesis attached : m_pShaderManager this = Some p.

Lemma shader_runs c : shader c this = Some (tt, this, [c]).
Proof. unfold shader. now rewrite attached. Qed.

Lemma SetTransformations_runs scaleXYZ X Y Z positionXYZ :
  SetTransformations scaleXYZ X Y Z positionXYZ this =
  Some (tt, this, [setMat4Value g_ModelName (modelView scaleXYZ X Y Z positionXYZ)]).
Proof.
  unfold SetTransformations, bind, get. rewrite attached.
  now rewrite shader_runs.
Qed.

Lemma SetShaderColor_runs r g b a :
  SetShaderColor r g b a this =
  Some (tt, this, [setIntValue g_UseTextureName 0;
                   setVec4Value g_ColorValueName (mkvec4 r g b a)]).
Proof.
  unfold SetShaderColor, bind, get. rewrite attached.
  now rewrite !shader_runs.
Qed.

Lemma SetTextureUVScale_runs u v :
  SetTextureUVScale u v this =
  Some (tt, this, [setVec2Value "UVscale" (mkvec2 u v)]).
Proof.
  unfold SetTextureUVScale, bind, get. rewrite attached.
  now rewrite shader_runs.
Qed.

Lemma SetShaderTexture_runs textureTag slot :
  FindTextureSlot this textureTag = Some slot ->
  SetShaderTexture textureTag this =
  Some (tt, this, [setIntValue g_UseTextureName 1;
                   setSampler2DValue g_TextureValueName slot]).
Proof.
  intros Hslot. unfold SetShaderTexture, bind, get. rewrite attached.
  rewrite shader_runs, Hslot. simpl. now rewrite shader_runs.
Qed.

Lemma SetShaderMaterial_runs materialTag :
  SetShaderMaterial materialTag this =
  Some (tt, this, material_calls (FindMaterial_while (m_objectMaterials this) materialTag)).
Proof.
  unfold SetShaderMaterial, FindMaterial, bind, get.
  destruct (m_objectMaterials this) as [|m0 rest] eqn:E; [reflexivity|].
  destruct (FindMaterial_while (m0 :: rest) materialTag) as [m|]; [|reflexivity].
  now rewrite !shader_runs.
Qed.

End Attached.

(** ** One frame *)

(** Runs a method of straight-line calls on an object with a shader
    manager attached ([Hsm]) whose lookup of "wood" is [Hslot]; the calls
    made instantiate the existential variable of the goal. *)
Ltac run_method Hsm Hslot :=
  first
    [ apply emit_runs
    | apply ret_runs
    | apply (shader_runs _ _ Hsm)
    | apply (SetTransformations_runs _ _ Hsm)
    | apply (SetShaderColor_runs _ _ Hsm)
    | apply (SetTextureUVScale_runs _ _ Hsm)
    | apply (SetShaderTexture_runs _ _ Hsm _ _ Hslot)
    | apply (SetShaderMaterial_runs _ _ Hsm)
    | eapply bind_runs; [ run_method Hsm Hslot | cbv beta zeta; run_method Hsm Hslot ] ].

Lemma RenderScene_frame this p w s slot :
  m_pShaderManager this = Some p ->
  FindTextureSlot this "wood" = Some slot ->
  exists calls,
    RenderScene (Some w) s this = Some (handle_input w s, this, calls) /\
    mat4_uniform "projection" calls None =
      Some (projection (perspectiveMode (handle_input w s))) /\
    draw_commands calls no_settings =
      scene_draws slot (FindMaterial_while (m_objectMaterials this) "woodMaterial")
                       (FindMaterial_while (m_objectMaterials this) "whiteMaterial").
Proof.
  intros Hsm Hslot. eexists. split.
  - unfold RenderScene, SetupSceneLights, draw_objects.
    run_method Hsm Hslot.
  - generalize (FindMaterial_while (m_objectMaterials this) "woodMaterial").
    generalize (FindMaterial_while (m_objectMaterials this) "whiteMaterial").
    intros [white|] [wood|]; split; reflexivity.
Qed.

Lemma RenderScene_no_window s this : RenderScene None s this = Some (s, this, []).
Proof. reflexivity. Qed.

Lemma render_loop_runs this p slot :
  m_pShaderManager this = Some p ->
  FindTextureSlot this "wood" = Some slot ->
  forall frames s,
  exists calls,
    render_loop frames s this = Some (statics_after frames s, this, calls).
Proof.
  intros Hsm Hslot.
  induction frames as [|[w|] frames IH]; intros s; cbn [render_loop statics_after].
  - now eexists.
  - destruct (RenderScene_frame this p w s slot Hsm Hslot) as (c1 & Hrun & _).
    destruct (IH (handle_input w s)) as (c2 & Hloop).
    rewrite Hrun, Hloop. now eexists.
  - destruct (IH s) as (c2 & Hloop).
    rewrite RenderScene_no_window, Hloop. now eexists.
Qed.

(** ** The camera *)




(** ** The projection *)





(** ** Colour and texture *)

Lemma int_uniform_app name calls1 : forall calls2 current,
  int_uniform name (calls1 ++ calls2) current =
  int_uniform name calls2 (int_uniform name calls1 current).
Proof.
  induction calls1 as [|c calls1 IH]; intros calls2 current; simpl; auto.
  destruct c; auto.
Qed.

Lemma scene_draws_colored_untextured slot wood white d :
  In d (scene_draws slot wood white) ->
  set_color (fst d) <> None -> set_useTexture (fst d) = Some 0.
Proof.
  unfold scene_draws, colored. simpl.
  intros H Hc.
  repeat (destruct H as [<-|H]; [try reflexivity; now elim Hc|]).
  destruct H.
Qed.

(** C10: with a shader manager attached, SetShaderColor, for every colour,
    pushes the use-texture flag as false together with the colour, so the
    flag is off after it whatever was pushed earlier in the frame
    ([earlier], a texture selection included); and in a frame of
    RenderScene every draw that had a colour set since the draw before has
    the flag off. *)
Theorem SetShaderColor_turns_texture_off
    (this : SceneManager) (p : positive) (slot : Z)
    (r g b a : R) (earlier : list call) (current : option Z)
    (w : GLFWwindow) (s : statics) :
  m_pShaderManager this = Some p ->
  FindTextureSlot this "wood" = Some slot ->
  SetShaderColor r g b a this =
    Some (tt, this, [setIntValue g_UseTextureName 0;
                     setVec4Value g_ColorValueName (mkvec4 r g b a)]) /\
  int_uniform g_UseTextureName
    (earlier ++ [setIntValue g_UseTextureName 0;
                 setVec4Value g_ColorValueName (mkvec4 r g b a)]) current = Some 0 /\
  exists calls,
    RenderScene (Some w) s this = Some (handle_input w s, this, calls) /\
    forall d, In d (draw_commands calls no_settings) ->
              set_color (fst d) <> None -> set_useTexture (fst d) = Some 0.
Proof.
  intros Hsm Hslot.
  split; [apply (SetShaderColor_runs this p Hsm)|].
  split; [now rewrite int_uniform_app|].
  destruct (RenderScene_frame this p w s slot Hsm Hslot) as (calls & Hrun & _ & Hdraws).
  exists calls. split; [exact Hrun|].
  rewrite Hdraws. apply scene_draws_colored_untextured.
Qed.

Lemma SetShaderColor_turns_texture_off_witness :
  m_pShaderManager (manager_with 1 "wood") = Some 1%positive /\
  FindTextureSlot (manager_with 1 "wood") "wood" = Some 0 /\
  int_uniform g_UseTextureName
    ([setIntValue g_UseTextureName 1; setSampler2DValue g_TextureValueName 0] ++
     [setIntValue g_UseTextureName 0;
      setVec4Value g_ColorValueName (mkvec4 1 0 0 1)]) None = Some 0.
Proof.
  split; [reflexivity|]. split; [reflexivity|].
  exact (proj1 (proj2
    (SetShaderColor_turns_texture_off (manager_with 1 "wood") 1%positive 0
       1 0 0 1 [setIntValue g_UseTextureName 1; setSampler2DValue g_TextureValueName 0]
       None (window_at 400 300 0 false) statics_init eq_refl eq_refl))).
Defined.

(** ** The transform *)

(** Unfolds the vector and matrix operations down to the arithmetic of
    the components. *)
Ltac glm_unfold :=
  cbv [mat4_mul mat4_mul_vec4 vec4_add vec4_scale vec3_scale vec3_add vec3_sub
       dot identity translate glm.scale point
       col0 col1 col2 col3 x4 y4 z4 w4 x3 y3 z3].

Lemma mat4_mul_vec4_assoc a b v :
  mat4_mul_vec4 (mat4_mul a b) v = mat4_mul_vec4 a (mat4_mul_vec4 b v).
Proof.
  destruct a as [[? ? ? ?] [? ? ? ?] [? ? ? ?] [? ? ? ?]].
  destruct b as [[? ? ? ?] [? ? ? ?] [? ? ? ?] [? ? ? ?]].
  destruct v as [? ? ? ?].
  glm_unfold. f_equal; ring.
Qed.

Lemma radians_0 : radians 0 = 0%R.
Proof. unfold radians. lra. Qed.

Lemma inversesqrt_1 : inversesqrt 1 = 1%R.
Proof. unfold inversesqrt. rewrite sqrt_1. lra. Qed.

(** A rotation by zero degrees about a coordinate axis is the identity. *)
Lemma rotate_0 axis :
  axis = mkvec3 1 0 0 \/ axis = mkvec3 0 1 0 \/ axis = mkvec3 0 0 1 ->
  rotate (radians 0) axis = identity.
Proof.
  intros H.
  assert (Hn : normalize axis = axis).
  { unfold normalize.
    replace (dot axis axis) with 1%R
      by (destruct H as [->|[->| ->]]; glm_unfold; ring).
    rewrite inversesqrt_1.
    destruct H as [->|[->| ->]]; glm_unfold; f_equal; ring. }
  unfold rotate. rewrite Hn, radians_0, cos_0, sin_0.
  destruct H as [->|[->| ->]]; glm_unfold; f_equal; f_equal; ring.
Qed.

Lemma identity_mul_vec4 v : mat4_mul_vec4 identity v = v.
Proof.
  destruct v. glm_unfold. f_equal; ring.
Qed.

Lemma modelView_unrotated scaleXYZ positionXYZ v :
  mat4_mul_vec4 (modelView scaleXYZ 0 0 0 positionXYZ) v =
  mkvec4 (x3 scaleXYZ * x4 v + x3 positionXYZ * w4 v)
         (y3 scaleXYZ * y4 v + y3 positionXYZ * w4 v)
         (z3 scaleXYZ * z4 v + z3 positionXYZ * w4 v)
         (w4 v).
Proof.
  unfold modelView. rewrite !rotate_0 by auto.
  rewrite !mat4_mul_vec4_assoc, !identity_mul_vec4.
  destruct scaleXYZ, positionXYZ, v.
  glm_unfold. f_equal; ring.
Qed.

(** C1: SetTransformations pushes as "model" the product
    translation * rotationX * rotationY * rotationZ * scale, in that order:
    applied to a vector it scales first, then rotates about Z, then Y, then
    X, and translates last.  With scale (2,1,1), no rotation and position
    (5,0,0) the origin goes to (5,0,0) and the point (1,0,0) to (7,0,0). *)
Theorem SetTransformations_order
    (this : SceneManager) (p : positive)
    (scaleXYZ : vec3) (X Y Z : R) (positionXYZ : vec3) :
  m_pShaderManager this = Some p ->
  SetTransformations scaleXYZ X Y Z positionXYZ this =
    Some (tt, this, [setMat4Value "model" (modelView scaleXYZ X Y Z positionXYZ)]) /\
  modelView scaleXYZ X Y Z positionXYZ =
    mat4_mul
      (mat4_mul
         (mat4_mul
            (mat4_mul (translate positionXYZ)
                      (rotate (radians X) (mkvec3 1 0 0)))
            (rotate (radians Y) (mkvec3 0 1 0)))
         (rotate (radians Z) (mkvec3 0 0 1)))
      (glm.scale scaleXYZ) /\
  (forall v,
     mat4_mul_vec4 (modelView scaleXYZ X Y Z positionXYZ) v =
     mat4_mul_vec4 (translate positionXYZ)
       (mat4_mul_vec4 (rotate (radians X) (mkvec3 1 0 0))
          (mat4_mul_vec4 (rotate (radians Y) (mkvec3 0 1 0))
             (mat4_mul_vec4 (rotate (radians Z) (mkvec3 0 0 1))
                (mat4_mul_vec4 (glm.scale scaleXYZ) v))))) /\
  mat4_mul_vec4 (modelView (mkvec3 2 1 1) 0 0 0 (mkvec3 5 0 0)) (point (mkvec3 0 0 0))
    = point (mkvec3 5 0 0) /\
  mat4_mul_vec4 (modelView (mkvec3 2 1 1) 0 0 0 (mkvec3 5 0 0)) (point (mkvec3 1 0 0))
    = point (mkvec3 7 0 0).
Proof.
  intros Hsm.
  split; [apply (SetTransformations_runs this p Hsm)|].
  split; [reflexivity|].
  split; [intros v; unfold modelView; now rewrite !mat4_mul_vec4_assoc|].
  rewrite !modelView_unrotated. glm_unfold.
  split; f_equal; ring.
Qed.

Lemma SetTransformations_order_witness :
  m_pShaderManager new_manager = Some 1%positive /\
  mat4_mul_vec4 (modelView (mkvec3 2 1 1) 0 0 0 (mkvec3 5 0 0)) (point (mkvec3 1 0 0))
    = point (mkvec3 7 0 0).
Proof.
  split; [reflexivity|].
  exact (proj2 (proj2 (proj2 (proj2
    (SetTransformations_order new_manager 1%positive
       (mkvec3 2 1 1) 0 0 0 (mkvec3 5 0 0) eq_refl))))).
Defined.

(** ** Tags that were never registered *)

(** C4, as stated, fails: on a manager with no texture loaded,
    SetShaderTexture with an unknown tag does not turn the use-texture flag
    off; it pushes the flag as true and the sampler as -1. *)
Lemma SetShaderTexture_unregistered_samples :
  FindTextureSlot new_manager "missing" = Some (-1) /\
  SetShaderTexture "missing" new_manager =
    Some (tt, new_manager, [setIntValue "bUseTexture" 1;
                            setSampler2DValue "objectTexture" (-1)]) /\
  ~ untextured_after (SetShaderTexture "missing") new_manager.
Proof.
  assert (Hrun : SetShaderTexture "missing" new_manager =
    Some (tt, new_manager, [setIntValue "bUseTexture" 1;
                            setSampler2DValue "objectTexture" (-1)]))
    by reflexivity.
  split; [reflexivity|]. split; [exact Hrun|].
  intros (calls & Hcalls & Hflag).
  rewrite Hrun in Hcalls. inversion Hcalls; subst calls.
  specialize (Hflag None). discriminate Hflag.
Qed.

(** C4, amended: for a texture tag and a material tag never registered the
    lookups give not-found (-1 and false, the material left as it was)
    and do not fail; SetShaderMaterial then pushes nothing and leaves the
    object as it is, so the shader keeps the material, colour and
    use-texture flag it had; SetShaderTexture returns as well. *)
Theorem unregistered_tags_are_not_failures
    (this : SceneManager) (textureTag materialTag : string)
    (material : OBJECT_MATERIAL) :
  array_ok this ->
  m_loadedTextures this <= 16 ->
  unregistered textureTag (loaded this) ->
  unregistered_material materialTag (m_objectMaterials this) ->
  FindTextureSlot this textureTag = Some (-1) /\
  FindTextureID this textureTag = Some (-1) /\
  FindMaterial this materialTag material = (false, material) /\
  SetShaderMaterial materialTag this = Some (tt, this, []) /\
  exists calls, SetShaderTexture textureTag this = Some (tt, this, calls).
Proof.
  intros Hok Hn Htex Hmat.
  assert (Hslot : FindTextureSlot this textureTag = Some (-1))
    by (rewrite FindTextureSlot_loaded by auto; now rewrite slot_in_unregistered).
  assert (Hfind : forall m, FindMaterial this materialTag m = (false, m)).
  { intros m. unfold FindMaterial.
    rewrite FindMaterial_while_unregistered by auto.
    now destruct (m_objectMaterials this). }
  split; [exact Hslot|].
  split; [rewrite FindTextureID_loaded by auto; now rewrite id_in_unregistered|].
  split; [apply Hfind|].
  split.
  - unfold SetShaderMaterial, bind, get.
    destruct (m_objectMaterials this) eqn:E; [reflexivity|].
    rewrite Hfind. reflexivity.
  - destruct (m_pShaderManager this) as [p|] eqn:Hsm.
    + eexists. apply (SetShaderTexture_runs this p Hsm _ _ Hslot).
    + exists []. unfold SetShaderTexture, bind, get. now rewrite Hsm.
Qed.

Lemma unregistered_tags_are_not_failures_witness :
  array_ok (manager_with 2 "wood") /\
  m_loadedTextures (manager_with 2 "wood") <= 16 /\
  unregistered "stone" (loaded (manager_with 2 "wood")) /\
  unregistered_material "gold" (m_objectMaterials (manager_with 2 "wood")) /\
  FindTextureSlot (manager_with 2 "wood") "stone" = Some (-1) /\
  SetShaderMaterial "gold" (manager_with 2 "wood") = Some (tt, manager_with 2 "wood", []).
Proof.
  assert (Hok : array_ok (manager_with 2 "wood")) by reflexivity.
  assert (Hn : m_loadedTextures (manager_with 2 "wood") <= 16) by (simpl; lia).
  assert (Htex : unregistered "stone" (loaded (manager_with 2 "wood"))).
  { intros e He. vm_compute in He. destruct He as [<-|[<-|[]]]; discriminate. }
  assert (Hmat : unregistered_material "gold" (m_objectMaterials (manager_with 2 "wood"))).
  { intros m []. }
  split; [exact Hok|]. split; [exact Hn|]. split; [exact Htex|]. split; [exact Hmat|].
  destruct (unregistered_tags_are_not_failures (manager_with 2 "wood") "stone" "gold"
              unassigned_material Hok Hn Htex Hmat)
    as (Hslot & _ & _ & Hset & _).
  split; [exact Hslot | exact Hset].
Defined.

(** ** Building the scene, then drawing it *)

Lemma BindGLTextures_for_runs n : forall i this,
  0 <= i -> i + Z.of_nat n <= 16 ->
  (Z.to_nat i + n <= List.length (m_textureIDs this))%nat ->
  exists calls, BindGLTextures_for n i this = Some (tt, this, calls).
Proof.
  induction n as [|n IH]; intros i this H0 H16 Hlen; cbn [BindGLTextures_for].
  - now eexists.
  - destruct (array_get_in_range (m_textureIDs this) i) as (e & Hget & _); try lia.
    destruct (IH (i + 1) this) as (calls & Hrest); try lia.
    eexists.
    eapply bind_runs; [apply get_runs | cbv beta].
    eapply bind_runs; [apply emit_runs | cbv beta].
    rewrite Hget.
    eapply bind_runs; [apply ret_runs | cbv beta].
    eapply bind_runs; [apply emit_runs | exact Hrest].
Qed.

Lemma BindGLTextures_runs this :
  array_ok this -> m_loadedTextures this <= 16 ->
  exists calls, BindGLTextures this = Some (tt, this, calls).
Proof.
  intros Hok Hn. unfold array_ok in Hok.
  destruct (BindGLTextures_for_runs (Z.to_nat (m_loadedTextures this)) 0 this)
    as (calls & Hrun); try lia.
  exists calls. unfold BindGLTextures.
  apply (bind_runs get _ this this this [] tt this calls (get_runs this) Hrun).
Qed.

Lemma accepted_channels img :
  accepted (Some img) = true -> colorChannels img = 3 \/ colorChannels img = 4.
Proof.
  unfold accepted. intros H. apply orb_true_iff in H.
  destruct H as [H|H]; apply Z.eqb_eq in H; auto.
Qed.

Lemma not_accepted_rejected this image textureID filename tag :
  accepted image = false -> load_rejected this image textureID filename tag.
Proof.
  destruct image as [img|]; intros H.
  - unfold accepted in H. apply orb_false_iff in H. destruct H as [H3 H4].
    apply CreateGLTexture_other_channels; now apply Z.eqb_neq.
  - apply CreateGLTexture_not_decoded.
Qed.

Lemma loaded_new_unregistered pShaderManager loaded0 id0 tag :
  tag <> EmptyString -> unregistered tag (loaded (SceneManager_new pShaderManager loaded0 id0)).
Proof.
  intros Htag e He. unfold loaded, SceneManager_new in He; cbn [m_textureIDs] in He.
  apply In_firstn, in_map_iff in He. destruct He as (i & <- & _).
  cbn. congruence.
Qed.

(** The scene build on a manager fresh from the constructor. *)
Lemma PrepareScene_runs p loaded0 id0 image textureID :
  0 <= loaded0 < 16 ->
  exists this calls,
    PrepareScene image textureID (SceneManager_new (Some p) loaded0 id0)
      = Some (tt, this, calls) /\
    m_pShaderManager this = Some p /\
    m_objectMaterials this = [woodMaterial; whiteMaterial] /\
    m_loadedTextures this = (if accepted image then loaded0 + 1 else loaded0) /\
    FindTextureSlot this "wood" = Some (if accepted image then loaded0 else -1).
Proof.
  intros Hn.
  set (this0 := SceneManager_new (Some p) loaded0 id0).
  assert (Hok0 : array_ok this0) by reflexivity.
  assert (Hfresh : unregistered "wood" (loaded this0))
    by (apply loaded_new_unregistered; discriminate).
  assert (Hcreate : exists this1 calls1,
    CreateGLTexture image textureID "Debug/wood.jpg" "wood" this0
      = Some (accepted image, this1, calls1) /\
    m_pShaderManager this1 = Some p /\ m_objectMaterials this1 = [] /\
    array_ok this1 /\
    m_loadedTextures this1 = (if accepted image then loaded0 + 1 else loaded0) /\
    FindTextureSlot this1 "wood" = Some (if accepted image then loaded0 else -1)).
  { destruct (accepted image) eqn:Hacc.
    - destruct image as [img|]; [|discriminate Hacc].
      destruct (CreateGLTexture_fresh_tag this0 img textureID
                  "Debug/wood.jpg" "wood" Hok0 Hn (accepted_channels img Hacc) Hfresh)
        as (this1 & calls1 & Hrun & Hsm & Hmat & Hok1 & Hcount & Hslot).
      exists this1, calls1. repeat split; assumption.
    - destruct (not_accepted_rejected this0 image textureID "Debug/wood.jpg" "wood" Hacc)
        as (calls1 & Hrun).
      exists this0, calls1. split; [exact Hrun|].
      repeat split; auto.
      rewrite FindTextureSlot_loaded by (auto; cbn; lia).
      now rewrite slot_in_unregistered. }
  destruct Hcreate as (this1 & calls1 & Hrun1 & Hsm & Hmat & Hok1 & Hcount & Hslot).
  destruct (BindGLTextures_runs this1 Hok1) as (calls2 & Hbind).
  { rewrite Hcount. destruct (accepted image); lia. }
  assert (Hmsg : exists calls,
    (if negb (accepted image) then emit (cout msg_error_wood) else ret tt) this1
    = Some (tt, this1, calls))
    by (destruct (accepted image); eexists; reflexivity).
  destruct Hmsg as (calls3 & Hmsg).
  eexists; eexists. split.
  - unfold PrepareScene.
    do 3 (eapply bind_runs; [apply emit_runs | cbv beta]).
    eapply bind_runs; [exact Hrun1 | cbv beta].
    eapply bind_runs; [exact Hmsg | cbv beta].
    eapply bind_runs; [apply (SetTextureUVScale_runs this1 p Hsm) | cbv beta].
    eapply bind_runs; [exact Hbind | cbv beta].
    eapply bind_runs; [reflexivity | reflexivity].
  - cbn [m_pShaderManager m_objectMaterials m_loadedTextures].
    rewrite Hmat. repeat split; auto.
Qed.

Lemma scene_draws_meshes slot wood white :
  map snd (scene_draws slot wood white) = scene_meshes.
Proof. reflexivity. Qed.

Lemma scene_draws_fully_set slot wood white :
  forallb fully_set (scene_draws slot (Some wood) (Some white)) = true.
Proof. reflexivity. Qed.

(** C9, as stated, fails: after the scene build, a call of RenderScene
    while no window is current returns at once and issues no draw. *)
Lemma RenderScene_without_window_draws_nothing :
  (exists calls,
     PrepareScene (Some rgb_image) 1 new_manager = Some (tt, built_manager, calls)) /\
  RenderScene None statics_init built_manager = Some (statics_init, built_manager, []) /\
  ~ draws_scene None statics_init built_manager.
Proof.
  split; [eexists; reflexivity|].
  split; [reflexivity|].
  intros (s' & calls & Hrun & Hdraws).
  rewrite RenderScene_no_window in Hrun.
  inversion Hrun; subst calls. discriminate Hdraws.
Qed.

(** C9, amended: the scene build on a manager fresh from the constructor
    (with the indeterminate count in 0..15) returns, registers exactly the
    two materials and, when wood.jpg is accepted, one texture; after it,
    every call of RenderScene made while a window is current issues exactly
    the eight draws, in the order floor, mug body, mug rim, mug handle,
    notebook, pen, laptop base, laptop screen, each with its own transform,
    its material or colour and its use-texture flag pushed since the draw
    before; a call with no current window returns without a call. *)
Theorem built_scene_draws_eight
    (p : positive) (loaded0 : Z) (id0 : nat -> Z)
    (image : option stbi_image) (textureID : Z) :
  0 <= loaded0 < 16 ->
  exists this calls0,
    PrepareScene image textureID (SceneManager_new (Some p) loaded0 id0)
      = Some (tt, this, calls0) /\
    m_objectMaterials this = [woodMaterial; whiteMaterial] /\
    m_loadedTextures this = (if accepted image then loaded0 + 1 else loaded0) /\
    (forall w s,
       exists calls,
         RenderScene (Some w) s this = Some (handle_input w s, this, calls) /\
         draw_commands calls no_settings =
           scene_draws (if accepted image then loaded0 else -1)
                       (Some woodMaterial) (Some whiteMaterial) /\
         map snd (draw_commands calls no_settings) = scene_meshes /\
         forallb fully_set (draw_commands calls no_settings) = true) /\
    (forall s, RenderScene None s this = Some (s, this, [])).
Proof.
  intros Hn.
  destruct (PrepareScene_runs p loaded0 id0 image textureID Hn)
    as (this & calls0 & Hrun & Hsm & Hmat & Hcount & Hslot).
  exists this, calls0.
  split; [exact Hrun|]. split; [exact Hmat|]. split; [exact Hcount|].
  split; [|intros s; apply RenderScene_no_window].
  intros w s.
  destruct (RenderScene_frame this p w s _ Hsm Hslot) as (calls & Hframe & _ & Hdraws).
  rewrite Hmat in Hdraws. change (FindMaterial_while _ "woodMaterial")
    with (Some woodMaterial) in Hdraws.
  change (FindMaterial_while _ "whiteMaterial") with (Some whiteMaterial) in Hdraws.
  exists calls. split; [exact Hframe|].
  rewrite Hdraws. split; [reflexivity|].
  split; [apply scene_draws_meshes | apply scene_draws_fully_set].
Qed.

Lemma built_scene_draws_eight_witness :
  0 <= 0 < 16 /\
  exists this calls0,
    PrepareScene (Some rgb_image) 1 (SceneManager_new (Some 1%positive) 0 (fun _ => 0))
      = Some (tt, this, calls0) /\
    draws_scene (Some (window_at 400 300 0 false)) statics_init this.
Proof.
  assert (Hn : 0 <= 0 < 16) by lia.
  split; [exact Hn|].
  destruct (built_scene_draws_eight 1%positive 0 (fun _ => 0) (Some rgb_image) 1 Hn)
    as (this & calls0 & Hrun & _ & _ & Hframes & _).
  exists this, calls0. split; [exact Hrun|].
  destruct (Hframes (window_at 400 300 0 false) statics_init)
    as (calls & Hframe & _ & Hmeshes & _).
  exists (handle_input (window_at 400 300 0 false) statics_init), calls.
  split; [exact Hframe | exact Hmeshes].
Defined.

(** ** The array keeps its extent *)

Lemma array_ok_new pShaderManager loaded0 id0 :
  array_ok (SceneManager_new pShaderManager loaded0 id0).
Proof. reflexivity. Qed.

Lemma CreateGLTexture_keeps_array this image textureID filename tag b this' calls :
  array_ok this ->
  CreateGLTexture image textureID filename tag this = Some (b, this', calls) ->
  array_ok this'.
Proof.
  intros Hok Hrun.
  destruct (accepted image) eqn:Hacc.
  - destruct image as [img|]; [|discriminate Hacc].
    pose proof (accepted_channels img Hacc) as Hc.
    destruct (Z_le_dec 0 (m_loadedTextures this)) as [H0|H0];
      [destruct (Z_lt_dec (m_loadedTextures this) 16) as [H16|H16]|].
    + destruct (CreateGLTexture_stores this img textureID filename tag Hok
                  (conj H0 H16) Hc) as (calls' & Hrun').
      rewrite Hrun' in Hrun. inversion Hrun; subst this'.
      unfold array_ok in *. cbn [m_textureIDs]. now rewrite length_list_set.
    + rewrite CreateGLTexture_outside_array in Hrun by (auto; lia). discriminate Hrun.
    + rewrite CreateGLTexture_outside_array in Hrun by (auto; lia). discriminate Hrun.
  - destruct (not_accepted_rejected this image textureID filename tag Hacc)
      as (calls' & Hrun').
    rewrite Hrun' in Hrun. inversion Hrun; now subst this'.
Qed.

(** ** Binary32: operations that never give a NaN *)

Lemma shr_1_nonneg mrs : 0 <= shr_m mrs -> 0 <= shr_m (shr_1 mrs).
Proof.
  destruct mrs as [m r s]; cbn [shr_m]; intros Hm.
  destruct m as [|[p|p|]|p]; cbn; lia.
Qed.

Lemma iter_pos_shr_1_nonneg n : forall mrs,
  0 <= shr_m mrs -> 0 <= shr_m (iter_pos shr_1 n mrs).
Proof.
  induction n as [n IH|n IH|]; intros mrs Hm; cbn [iter_pos].
  - apply IH, IH, shr_1_nonneg, Hm.
  - apply IH, IH, Hm.
  - apply shr_1_nonneg, Hm.
Qed.

Lemma shr_fexp_nonneg prec emax m e l :
  0 <= m -> 0 <= shr_m (fst (shr_fexp prec emax m e l)).
Proof.
  intros Hm. unfold shr_fexp, shr.
  assert (H0 : 0 <= shr_m (shr_record_of_loc m l))
    by (destruct l as [|[ | | ]]; exact Hm).
  destruct (fexp prec emax (Zdigits2 m + e) - e); cbn [fst]; auto.
  now apply iter_pos_shr_1_nonneg.
Qed.

Lemma round_nearest_even_nonneg mx lx : 0 <= mx -> 0 <= round_nearest_even mx lx.
Proof.
  intros Hm. unfold round_nearest_even.
  destruct lx as [|[ | | ]]; try destruct (Z.even mx); lia.
Qed.

Lemma binary_round_aux_not_nan prec emax sx mx ex lx :
  0 <= mx -> binary_round_aux prec emax sx mx ex lx <> S754_nan.
Proof.
  intros Hm. unfold binary_round_aux.
  pose proof (shr_fexp_nonneg prec emax mx ex lx Hm) as H1.
  destruct (shr_fexp prec emax mx ex lx) as [mrs' e']. cbn [fst] in H1.
  pose proof (shr_fexp_nonneg prec emax
                (round_nearest_even (shr_m mrs') (loc_of_shr_record mrs')) e' loc_Exact
                (round_nearest_even_nonneg _ _ H1)) as H2.
  destruct (shr_fexp prec emax _ e' loc_Exact) as [mrs'' e'']. cbn [fst] in H2.
  destruct (shr_m mrs'') as [|m|m]; try discriminate; try lia.
  destruct (e'' <=? emax - prec); discriminate.
Qed.

Lemma binary_normalize_not_nan prec emax m e szero :
  binary_normalize prec emax m e szero <> S754_nan.
Proof.
  unfold binary_normalize, binary_round.
  destruct m as [|m|m]; [discriminate| |];
    destruct (shl_align m e _) as [mz ez]; apply binary_round_aux_not_nan; lia.
Qed.

Lemma of_double_not_nan x : x <> S754_nan -> F32.of_double x <> S754_nan.
Proof.
  destruct x; cbn [F32.of_double]; auto. intros _. apply binary_normalize_not_nan.
Qed.

(** The difference of two finite floats is not a NaN. *)
Lemma sub_finite_not_nan x y :
  F32.is_finite x = true -> F32.is_finite y = true -> F32.sub x y <> S754_nan.
Proof.
  destruct x as [sx|sx| |sx mx ex], y as [sy|sy| |sy my ey];
    try discriminate; intros _ _; unfold F32.sub, SFsub;
    try discriminate; try apply binary_normalize_not_nan.
  destruct sx, sy; discriminate.
Qed.

(** A float that is not a NaN, times a finite float other than zero. *)
Lemma mul_finite_not_nan x sy my ey :
  x <> S754_nan -> F32.mul x (S754_finite sy my ey) <> S754_nan.
Proof.
  destruct x as [sx|sx| |sx mx ex]; intros Hx; unfold F32.mul, SFmul;
    try discriminate; try (now elim Hx).
  apply binary_round_aux_not_nan. lia.
Qed.

(** A finite float plus a float that is not a NaN. *)
Lemma add_finite_not_nan x y :
  F32.is_finite x = true -> y <> S754_nan -> F32.add x y <> S754_nan.
Proof.
  destruct x as [sx|sx| |sx mx ex], y as [sy|sy| |sy my ey];
    try discriminate; intros _ Hy; unfold F32.add, SFadd;
    try discriminate; try (now elim Hy); try apply binary_normalize_not_nan.
  destruct sx, sy; discriminate.
Qed.

(** A finite float minus itself is +0. *)
Lemma sub_same x : F32.is_finite x = true -> F32.sub x x = S754_zero false.
Proof.
  destruct x as [s|s| |s m e]; try discriminate; intros _;
    unfold F32.sub, SFsub.
  - now destruct s.
  - now rewrite Z.sub_diag.
Qed.

(** ** Binary32: the order *)

Lemma SFcompare_antisym x y :
  SFcompare y x = option_map CompOpp (SFcompare x y).
Proof.
  destruct x as [sx|sx| |sx mx ex], y as [sy|sy| |sy my ey]; cbn;
    try reflexivity;
    try (destruct sx; reflexivity); try (destruct sy; reflexivity);
    try (destruct sx, sy; reflexivity).
  destruct sx, sy; cbn; try reflexivity;
    rewrite (Z.compare_antisym ex ey);
    destruct (ex ?= ey); cbn; try reflexivity;
    change (Pos.compare_cont Eq my mx) with (Pos.compare my mx);
    change (Pos.compare_cont Eq mx my) with (Pos.compare mx my);
    rewrite (Pos.compare_antisym mx my);
    destruct (mx ?= my)%positive; reflexivity.
Qed.

(** For floats that are not NaN, "not x < y" is "y <= x". *)
Lemma not_ltb_leb x y :
  x <> S754_nan -> y <> S754_nan -> F32.ltb x y = false -> F32.leb y x = true.
Proof.
  intros Hx Hy. unfold F32.ltb, F32.leb, SFltb, SFleb.
  rewrite (SFcompare_antisym x y).
  destruct (SFcompare x y) as [[ | | ]|] eqn:E; cbn; try discriminate; auto.
  destruct x, y; try discriminate E; try (now elim Hx); now elim Hy.
Qed.

Lemma leb_not_nan x y : F32.leb x y = true -> x <> S754_nan /\ y <> S754_nan.
Proof.
  unfold F32.leb, SFleb. destruct x, y; cbn; try discriminate; split; discriminate.
Qed.

(** glm::clamp of a float that is not a NaN lies between the bounds. *)
Lemma clamp_in_range x :
  x <> S754_nan ->
  F32.leb F32.f_m89 (F32.clamp x F32.f_m89 F32.f_89) = true /\
  F32.leb (F32.clamp x F32.f_m89 F32.f_89) F32.f_89 = true.
Proof.
  intros Hx. unfold F32.clamp, F32.min, F32.max.
  destruct (F32.ltb x F32.f_m89) eqn:E1.
  - split; reflexivity.
  - destruct (F32.ltb F32.f_89 x) eqn:E2.
    + split; reflexivity.
    + split; apply not_ltb_leb; auto; discriminate.
Qed.

Lemma in_range_finite p :
  F32.leb F32.f_m89 p = true -> F32.leb p F32.f_89 = true -> F32.is_finite p = true.
Proof.
  destruct p as [s|s| |s m e]; intros Hlo Hhi; try reflexivity.
  - destruct s; [vm_compute in Hlo; discriminate Hlo | vm_compute in Hhi; discriminate Hhi].
  - vm_compute in Hlo. discriminate Hlo.
Qed.

Lemma above_not_below x :
  F32.ltb F32.f_89 x = true -> F32.ltb x F32.f_m89 = false.
Proof.
  destruct x as [s|s| |s m e]; intros H.
  - vm_compute in H. discriminate H.
  - destruct s; [vm_compute in H; discriminate H | reflexivity].
  - vm_compute in H. discriminate H.
  - destruct s; [cbv in H; discriminate H | reflexivity].
Qed.

(** ** Binary32: the pitch *)

Lemma pitch_sum_not_nan c s :
  F32.finite_reading (Some c) ->
  F32.pitch_in_range s -> F32.is_finite (F32.lastY s) = true ->
  F32.pitch_sum c s <> S754_nan.
Proof.
  intros (_ & Hy) (Hlo & Hhi) Hlast. unfold F32.pitch_sum, F32.sensitivity, F32.f_0_1.
  apply add_finite_not_nan; [now apply in_range_finite|].
  apply mul_finite_not_nan, sub_finite_not_nan; [|exact Hy].
  now destruct (F32.firstMouse s).
Qed.

Lemma mouse_input_keeps_range c s :
  F32.finite_reading (Some c) ->
  F32.pitch_in_range s /\ F32.is_finite (F32.lastY s) = true ->
  F32.pitch_in_range (F32.mouse_input c s) /\
  F32.is_finite (F32.lastY (F32.mouse_input c s)) = true.
Proof.
  intros Hc (Hp & Hlast). split.
  - unfold F32.pitch_in_range, F32.mouse_input; cbn [F32.pitch].
    apply clamp_in_range, pitch_sum_not_nan; auto.
  - exact (proj2 Hc).
Qed.

Lemma statics_after_keeps_range frames : forall s,
  Forall F32.finite_reading frames ->
  F32.pitch_in_range s /\ F32.is_finite (F32.lastY s) = true ->
  F32.pitch_in_range (F32.statics_after frames s) /\
  F32.is_finite (F32.lastY (F32.statics_after frames s)) = true.
Proof.
  induction frames as [|[c|] frames IH]; intros s Hall Hs; cbn [F32.statics_after].
  - exact Hs.
  - inversion Hall as [|? ? Hc Hrest]; subst.
    apply IH; [exact Hrest|]. now apply mouse_input_keeps_range.
  - inversion Hall as [|? ? Hc Hrest]; subst. now apply IH.
Qed.

Lemma pitch_pinned c s :
  (F32.ltb F32.f_89 (F32.pitch_sum c s) = true ->
   F32.pitch (F32.mouse_input c s) = F32.f_89) /\
  (F32.ltb (F32.pitch_sum c s) F32.f_m89 = true ->
   F32.pitch (F32.mouse_input c s) = F32.f_m89) /\
  (F32.ltb F32.f_89 (F32.pitch_sum c s) = false ->
   F32.ltb (F32.pitch_sum c s) F32.f_m89 = false ->
   F32.pitch (F32.mouse_input c s) = F32.pitch_sum c s).
Proof.
  unfold F32.mouse_input; cbn [F32.pitch]. unfold F32.clamp, F32.min, F32.max.
  split; [|split].
  - intros Habove. now rewrite (above_not_below _ Habove), Habove.
  - intros Hbelow. now rewrite Hbelow.
  - intros Habove Hbelow. now rewrite Hbelow, Habove.
Qed.

(** C6, as stated, fails: a first reading of 1e39 for the cursor's y is
    beyond the range of float; it converts to +infinity, the offset
    infinity - infinity is a NaN, the clamp lets a NaN through, and the
    pitch after the frame is a NaN, not a number within [-89, 89]. *)
Lemma pitch_is_nan_beyond_float_range :
  F32.of_double (F32.ypos (F32.cursor_at 0 (10 ^ 39))) = S754_infinity false /\
  F32.pitch (F32.statics_after [Some (F32.cursor_at 0 (10 ^ 39))] F32.statics_init)
    = S754_nan /\
  ~ (forall frames, F32.pitch_in_range (F32.statics_after frames F32.statics_init)).
Proof.
  split; [reflexivity|]. split; [reflexivity|].
  intros H. specialize (H [Some (F32.cursor_at 0 (10 ^ 39))]).
  destruct H as (Hlo & _). vm_compute in Hlo. discriminate Hlo.
Qed.

(** C6, amended: for every run of frames, with or without a window, whose
    cursor readings all convert to finite floats, the pitch after each
    frame's input handling is within [-89, 89], however far the vertical
    deltas would drive it; and it is pinned at the bound: with [sum] the
    float pitch + (lastY - ypos) * 0.1f that the next frame computes, that
    frame leaves the pitch at exactly 89 when [sum] is above 89, at
    exactly -89 when [sum] is below -89, and at [sum] otherwise. *)
Theorem pitch_clamped_for_finite_readings
    (frames : list (option F32.cursor)) (c : F32.cursor) :
  Forall F32.finite_reading frames ->
  F32.finite_reading (Some c) ->
  let s := F32.statics_after frames F32.statics_init in
  let s' := F32.mouse_input c s in
  let lastY0 := if F32.firstMouse s then F32.of_double (F32.ypos c) else F32.lastY s in
  let sum := F32.add (F32.pitch s)
               (F32.mul (F32.sub lastY0 (F32.of_double (F32.ypos c))) F32.f_0_1) in
  F32.pitch_in_range s /\
  F32.pitch_in_range s' /\
  (F32.ltb F32.f_89 sum = true -> F32.pitch s' = F32.f_89) /\
  (F32.ltb sum F32.f_m89 = true -> F32.pitch s' = F32.f_m89) /\
  (F32.ltb F32.f_89 sum = false -> F32.ltb sum F32.f_m89 = false -> F32.pitch s' = sum).
Proof.
  intros Hall Hc. cbv zeta.
  assert (Hinit : F32.pitch_in_range F32.statics_init /\
                  F32.is_finite (F32.lastY F32.statics_init) = true)
    by (repeat split; reflexivity).
  pose proof (statics_after_keeps_range frames F32.statics_init Hall Hinit) as Hs.
  split; [exact (proj1 Hs)|].
  split; [exact (proj1 (mouse_input_keeps_range c _ Hc Hs))|].
  apply pitch_pinned.
Qed.

Lemma pitch_clamped_for_finite_readings_witness :
  let frames := [Some (F32.cursor_at 400 300); None; Some (F32.cursor_at 400 (-5000))] in
  let c := F32.cursor_at 400 (10 ^ 30) in
  Forall F32.finite_reading frames /\
  F32.finite_reading (Some c) /\
  F32.pitch (F32.statics_after frames F32.statics_init) = F32.f_89 /\
  F32.pitch (F32.mouse_input c (F32.statics_after frames F32.statics_init)) = F32.f_m89.
Proof.
  cbv zeta.
  assert (Hall : Forall F32.finite_reading
            [Some (F32.cursor_at 400 300); None; Some (F32.cursor_at 400 (-5000))])
    by (repeat constructor).
  assert (Hc : F32.finite_reading (Some (F32.cursor_at 400 (10 ^ 30))))
    by (split; reflexivity).
  split; [exact Hall|]. split; [exact Hc|]. split; [reflexivity|].
  destruct (pitch_clamped_for_finite_readings _ _ Hall Hc) as (_ & _ & _ & Hbelow & _).
  apply Hbelow. reflexivity.
Defined.

(** ** Binary32: the first sample *)

Lemma F32_statics_after_no_window k s : F32.statics_after (repeat None k) s = s.
Proof.
  induction k as [|k IH]; simpl; auto.
Qed.

Lemma F32_statics_after_app frames1 : forall frames2 s,
  F32.statics_after (frames1 ++ frames2) s =
  F32.statics_after frames2 (F32.statics_after frames1 s).
Proof.
  induction frames1 as [|[c|] frames1 IH]; intros frames2 s; simpl; auto.
Qed.

(** C7, as stated, fails: a first reading of 1e39 for the cursor's x is
    beyond the range of float; lastX is seeded with +infinity, the offset
    infinity - infinity is a NaN, and the yaw after the frame is a NaN: it
    has not kept its value. *)
Lemma first_sample_beyond_float_range_rotates :
  F32.lastX (F32.mouse_input (F32.cursor_at (10 ^ 39) 0) F32.statics_init)
    = S754_infinity false /\
  F32.yaw (F32.mouse_input (F32.cursor_at (10 ^ 39) 0) F32.statics_init) = S754_nan /\
  F32.yaw (F32.mouse_input (F32.cursor_at (10 ^ 39) 0) F32.statics_init)
    <> F32.yaw F32.statics_init.
Proof.
  split; [reflexivity|]. split; [reflexivity|].
  vm_compute. discriminate.
Qed.

(** C7, amended: at the first call of RenderScene that has a window (after
    any number of calls without one), for every cursor reading that
    converts to finite floats, the last cursor position is seeded with
    the reading and yaw and pitch keep exactly the values they had, -90
    and 0: the offsets are zero and no rotation is applied. *)
Theorem first_finite_sample_does_not_rotate (k : nat) (c : F32.cursor) :
  F32.finite_reading (Some c) ->
  let s' := F32.statics_after (repeat None k ++ [Some c]) F32.statics_init in
  F32.lastX s' = F32.of_double (F32.xpos c) /\
  F32.lastY s' = F32.of_double (F32.ypos c) /\
  F32.yaw s' = F32.yaw F32.statics_init /\
  F32.pitch s' = F32.pitch F32.statics_init /\
  F32.firstMouse s' = false.
Proof.
  intros (Hx & Hy). cbv zeta.
  rewrite F32_statics_after_app, F32_statics_after_no_window.
  cbn [F32.statics_after].
  unfold F32.mouse_input, F32.pitch_sum;
    cbn [F32.lastX F32.lastY F32.yaw F32.pitch F32.firstMouse F32.statics_init].
  rewrite !sub_same by assumption.
  repeat split; reflexivity.
Qed.

Lemma first_finite_sample_does_not_rotate_witness :
  F32.finite_reading (Some (F32.cursor_at 1234 (-777))) /\
  F32.yaw (F32.statics_after ([None; None] ++ [Some (F32.cursor_at 1234 (-777))])
             F32.statics_init) = F32.f_m90.
Proof.
  assert (Hc : F32.finite_reading (Some (F32.cursor_at 1234 (-777))))
    by (split; reflexivity).
  split; [exact Hc|].
  exact (proj1 (proj2 (proj2 (first_finite_sample_does_not_rotate 2 _ Hc)))).
Defined.

(** The literals are the floats of the source's decimal literals, and the
    floats the compiler would store. *)
Lemma F32_literals :
  F32.f_0_1 = SFdiv F32.prec F32.emax (F32.float_of_Z 1) (F32.float_of_Z 10) /\
  F32.f_0_1 = F32.of_double (SFdiv 53 1024 (F32.double_of_Z 1) (F32.double_of_Z 10)) /\
  F32.f_89 = F32.float_of_Z 89 /\ F32.f_m89 = F32.float_of_Z (-89) /\
  F32.f_m90 = F32.float_of_Z (-90) /\
  F32.f_400 = F32.float_of_Z 400 /\ F32.f_300 = F32.float_of_Z 300 /\
  forallb (valid_binary F32.prec F32.emax)
    [F32.f_0_1; F32.f_89; F32.f_m89; F32.f_m90; F32.f_0; F32.f_400; F32.f_300] = true.
Proof. repeat split; reflexivity. Qed.

(** * Further properties of the code *)

(** ** Binding and destroying the loaded textures *)

Lemma BindGLTextures_for_calls n : forall i this,
  0 <= i -> i + Z.of_nat n <= 16 ->
  (Z.to_nat i + n <= List.length (m_textureIDs this))%nat ->
  BindGLTextures_for n i this =
  Some (tt, this, bind_calls (firstn n (skipn (Z.to_nat i) (m_textureIDs this))) i).
Proof.
  induction n as [|n IH]; intros i this H0 H16 Hlen; cbn [BindGLTextures_for].
  - reflexivity.
  - destruct (array_get_in_range (m_textureIDs this) i) as (e & Hget & Hnth); try lia.
    rewrite (skipn_nth_error _ _ _ Hnth).
    unfold bind at 1. rewrite get_runs.
    unfold bind at 1. rewrite emit_runs.
    unfold bind at 1. rewrite Hget. cbn [lift]. rewrite ret_runs.
    unfold bind at 1. rewrite emit_runs.
    rewrite IH by lia.
    replace (Z.to_nat (i + 1)) with (S (Z.to_nat i)) by lia.
    reflexivity.
Qed.

Lemma BindGLTextures_for_overrun n : forall i this,
  0 <= i <= 16 -> 16 < i + Z.of_nat n ->
  List.length (m_textureIDs this) = 16%nat ->
  BindGLTextures_for n i this = None.
Proof.
  induction n as [|n IH]; intros i this Hi Hn Hlen; cbn [BindGLTextures_for].
  - lia.
  - unfold bind at 1. rewrite get_runs.
    unfold bind at 1. rewrite emit_runs.
    unfold bind at 1.
    destruct (Z.eq_dec i 16) as [->|Hne].
    + rewrite array_get_out_of_range by lia. reflexivity.
    + destruct (array_get_in_range (m_textureIDs this) i) as (e & Hget & _); try lia.
      rewrite Hget. cbn [lift]. rewrite ret_runs.
      unfold bind at 1. rewrite emit_runs.
      rewrite IH by lia. reflexivity.
Qed.

Lemma BindGLTextures_calls this :
  array_ok this -> m_loadedTextures this <= 16 ->
  BindGLTextures this = Some (tt, this, bind_calls (loaded this) 0).
Proof.
  intros Hok Hn. unfold array_ok in Hok.
  unfold BindGLTextures, bind. rewrite get_runs.
  rewrite BindGLTextures_for_calls by lia. reflexivity.
Qed.

(** X1: on a manager whose array has its sixteen elements, BindGLTextures
    with at most 16 textures counted leaves the manager as it is and binds
    the loaded textures in load order, the i-th to the unit i (none when
    the count is zero or negative); with more than 16 counted it reads
    outside the array. *)
Theorem BindGLTextures_units (this : SceneManager) :
  array_ok this ->
  (m_loadedTextures this <= 16 ->
   BindGLTextures this = Some (tt, this, bind_calls (loaded this) 0)) /\
  (16 < m_loadedTextures this -> BindGLTextures this = None).
Proof.
  intros Hok. split; intros Hn.
  - now apply BindGLTextures_calls.
  - unfold array_ok in Hok. unfold BindGLTextures, bind. rewrite get_runs.
    rewrite BindGLTextures_for_overrun by lia. reflexivity.
Qed.

Lemma BindGLTextures_units_witness :
  array_ok scene_manager /\
  BindGLTextures scene_manager =
    Some (tt, scene_manager,
          [glActiveTexture 0; glBindTexture GL_TEXTURE_2D 7;
           glActiveTexture 1; glBindTexture GL_TEXTURE_2D 8;
           glActiveTexture 2; glBindTexture GL_TEXTURE_2D 9]).
Proof.
  split; [reflexivity|].
  apply (proj1 (BindGLTextures_units scene_manager eq_refl)).
  simpl; lia.
Defined.

Lemma DestroyGLTextures_for_calls n : forall i this,
  0 <= i -> i + Z.of_nat n <= 16 ->
  (Z.to_nat i + n <= List.length (m_textureIDs this))%nat ->
  DestroyGLTextures_for n i this =
  Some (tt, this, destroy_calls (firstn n (skipn (Z.to_nat i) (m_textureIDs this)))).
Proof.
  induction n as [|n IH]; intros i this H0 H16 Hlen; cbn [DestroyGLTextures_for].
  - reflexivity.
  - destruct (array_get_in_range (m_textureIDs this) i) as (e & Hget & Hnth); try lia.
    rewrite (skipn_nth_error _ _ _ Hnth).
    unfold bind at 1. rewrite get_runs.
    unfold bind at 1. rewrite Hget. cbn [lift]. rewrite ret_runs.
    unfold bind at 1. rewrite emit_runs.
    rewrite IH by lia.
    replace (Z.to_nat (i + 1)) with (S (Z.to_nat i)) by lia.
    reflexivity.
Qed.

(** X2: DestroyGLTextures deletes the name of every loaded texture, in load
    order, and returns the manager as it was: the count and the tags are
    not reset, so the lookups still find the deleted textures afterwards. *)
Theorem DestroyGLTextures_keeps_registry (this : SceneManager) :
  array_ok this ->
  m_loadedTextures this <= 16 ->
  DestroyGLTextures this = Some (tt, this, destroy_calls (loaded this)).
Proof.
  intros Hok Hn. unfold array_ok in Hok.
  unfold DestroyGLTextures, bind. rewrite get_runs.
  rewrite DestroyGLTextures_for_calls by lia. reflexivity.
Qed.

Lemma DestroyGLTextures_keeps_registry_witness :
  array_ok scene_manager /\
  m_loadedTextures scene_manager <= 16 /\
  DestroyGLTextures scene_manager =
    Some (tt, scene_manager,
          [glDeleteTextures 1 7; glDeleteTextures 1 8; glDeleteTextures 1 9]).
Proof.
  assert (Hn : m_loadedTextures scene_manager <= 16) by (simpl; lia).
  split; [reflexivity|]. split; [exact Hn|].
  exact (DestroyGLTextures_keeps_registry scene_manager eq_refl Hn).
Defined.

(** ** What the texture lookups return *)

Lemma slot_in_cases l tag : forall index,
  (slot_in l tag index (-1) = -1 /\ unregistered tag l /\ id_in l tag (-1) = -1) \/
  (exists before e after,
     l = before ++ e :: after /\ unregistered tag before /\ tag_of e = tag /\
     slot_in l tag index (-1) = index + Z.of_nat (List.length before) /\
     id_in l tag (-1) = int_of_uint32 (ID e)).
Proof.
  induction l as [|e r IH]; intros index; simpl.
  - left. repeat split. intros e [].
  - destruct (String.eqb_spec (tag_of e) tag) as [E|E].
    + right. exists [], e, r. repeat split; auto; [intros e' [] | simpl; lia].
    + destruct (IH (index + 1)) as [(Hs & Hu & Hi)|(before & e' & after & -> & Hu & Ht & Hs & Hi)].
      * left. repeat split; auto. intros e' [<-|He']; auto.
      * right. exists (e :: before), e', after.
        repeat split; auto.
        -- intros e'' [<-|He'']; auto.
        -- rewrite Hs. simpl List.length. lia.
Qed.

(** X3: on a registry within its array, FindTextureSlot returns either -1,
    and then no loaded entry carries the tag and FindTextureID returns -1
    too, or a slot in [0, m_loadedTextures) whose entry carries the tag,
    with no loaded entry before it carrying it, and FindTextureID returns
    the name of that same entry (converted to int). *)
Theorem FindTextureSlot_sound (this : SceneManager) (tag : string) :
  array_ok this ->
  m_loadedTextures this <= 16 ->
  exists slot,
    FindTextureSlot this tag = Some slot /\
    ((slot = -1 /\ unregistered tag (loaded this) /\
      FindTextureID this tag = Some (-1)) \/
     (0 <= slot < m_loadedTextures this /\
      exists e,
        nth_error (m_textureIDs this) (Z.to_nat slot) = Some e /\
        tag_of e = tag /\
        unregistered tag (firstn (Z.to_nat slot) (m_textureIDs this)) /\
        FindTextureID this tag = Some (int_of_uint32 (ID e)))).
Proof.
  intros Hok Hn.
  rewrite FindTextureSlot_loaded, FindTextureID_loaded by auto.
  eexists. split; [reflexivity|].
  destruct (slot_in_cases (loaded this) tag 0)
    as [(Hs & Hu & Hi)|(before & e & after & Hl & Hu & Ht & Hs & Hi)].
  - left. rewrite Hs, Hi. auto.
  - right. rewrite Hs, Hi.
    assert (Hlen : (List.length before < Z.to_nat (m_loadedTextures this))%nat).
    { assert (H : List.length (loaded this) = List.length (before ++ e :: after))
        by now rewrite Hl.
      unfold loaded in H. rewrite length_firstn, length_app in H. simpl in H. lia. }
    split; [lia|]. exists e.
    replace (Z.to_nat (0 + Z.of_nat (List.length before))) with (List.length before) by lia.
    assert (Hfull : firstn (Z.to_nat (m_loadedTextures this)) (m_textureIDs this)
                    = before ++ e :: after) by exact Hl.
    assert (Hnth : nth_error (loaded this) (List.length before) = Some e).
    { rewrite Hl, nth_error_app2 by lia. now rewrite Nat.sub_diag. }
    unfold loaded in Hnth. rewrite nth_error_firstn in Hnth.
    destruct (Nat.ltb_spec (List.length before) (Z.to_nat (m_loadedTextures this)));
      [|lia].
    split; [exact Hnth|]. split; [exact Ht|]. split; [|reflexivity].
    assert (Hpre : firstn (List.length before) (m_textureIDs this) = before).
    { replace (List.length before)
        with (Nat.min (List.length before) (Z.to_nat (m_loadedTextures this))) at 1 by lia.
      rewrite <- firstn_firstn, Hfull, firstn_app, Nat.sub_diag, firstn_all.
      simpl. apply app_nil_r. }
    now rewrite Hpre.
Qed.

Lemma FindTextureSlot_sound_witness :
  array_ok scene_manager /\
  m_loadedTextures scene_manager <= 16 /\
  FindTextureSlot scene_manager "tile" = Some 1 /\
  FindTextureID scene_manager "tile" = Some 8.
Proof.
  assert (Hn : m_loadedTextures scene_manager <= 16) by (simpl; lia).
  split; [reflexivity|]. split; [exact Hn|].
  destruct (FindTextureSlot_sound scene_manager "tile" eq_refl Hn) as (slot & Hs & _).
  split; reflexivity.
Defined.

Lemma bind_calls_app l1 : forall l2 i,
  bind_calls (l1 ++ l2) i =
  bind_calls l1 i ++ bind_calls l2 (i + Z.of_nat (List.length l1)).
Proof.
  induction l1 as [|e r IH]; intros l2 i.
  - simpl. f_equal. lia.
  - cbn [app bind_calls]. rewrite IH. simpl List.length.
    replace (i + Z.of_nat (S (List.length r))) with (i + 1 + Z.of_nat (List.length r)) by lia.
    reflexivity.
Qed.

(** X4: for the first loaded entry under a tag, the sampler SetShaderTexture
    pushes (with the use-texture flag on) is the texture unit to which
    BindGLTextures binds the name of that entry. *)
Theorem SetShaderTexture_selects_bound_unit
    (this : SceneManager) (p : positive)
    (before : list TEXTURE_INFO) (e : TEXTURE_INFO) (after : list TEXTURE_INFO) :
  m_pShaderManager this = Some p ->
  array_ok this ->
  m_loadedTextures this <= 16 ->
  loaded this = before ++ e :: after ->
  unregistered (tag_of e) before ->
  SetShaderTexture (tag_of e) this =
    Some (tt, this,
          [setIntValue g_UseTextureName 1;
           setSampler2DValue g_TextureValueName (Z.of_nat (List.length before))]) /\
  exists pre post,
    BindGLTextures this =
      Some (tt, this,
            pre ++ [glActiveTexture (Z.of_nat (List.length before));
                    glBindTexture GL_TEXTURE_2D (ID e)] ++ post).
Proof.
  intros Hsm Hok Hn Hl Hu. split.
  - apply (SetShaderTexture_runs this p Hsm).
    rewrite FindTextureSlot_loaded, Hl by auto.
    now rewrite slot_in_first.
  - exists (bind_calls before 0),
           (bind_calls after (0 + Z.of_nat (List.length before) + 1)).
    rewrite (BindGLTextures_calls this Hok Hn), Hl, bind_calls_app. reflexivity.
Qed.

Lemma SetShaderTexture_selects_bound_unit_witness :
  m_pShaderManager scene_manager = Some 1%positive /\
  array_ok scene_manager /\
  m_loadedTextures scene_manager <= 16 /\
  SetShaderTexture "tile" scene_manager =
    Some (tt, scene_manager,
          [setIntValue g_UseTextureName 1; setSampler2DValue g_TextureValueName 1]).
Proof.
  assert (Hn : m_loadedTextures scene_manager <= 16) by (simpl; lia).
  split; [reflexivity|]. split; [reflexivity|]. split; [exact Hn|].
  refine (proj1 (SetShaderTexture_selects_bound_unit scene_manager 1%positive
            [mkTEXTURE_INFO "wood" 7] (mkTEXTURE_INFO "tile" 8) [mkTEXTURE_INFO "wood" 9]
            eq_refl eq_refl Hn eq_refl _)).
  intros e' [<-|[]]. discriminate.
Defined.

(** ** The material registry *)

Lemma FindMaterial_while_cases l tag :
  (FindMaterial_while l tag = None /\ unregistered_material tag l) \/
  (exists before m after,
     l = before ++ m :: after /\ unregistered_material tag before /\ mtag m = tag /\
     FindMaterial_while l tag = Some m).
Proof.
  induction l as [|m r IH]; simpl.
  - left. split; auto. intros m [].
  - destruct (String.eqb_spec (mtag m) tag) as [E|E].
    + right. exists [], m, r. repeat split; auto. intros m' [].
    + destruct IH as [(Hn & Hu)|(before & m' & after & -> & Hu & Ht & Hf)].
      * left. split; auto. intros m' [<-|Hm']; auto.
      * right. exists (m :: before), m', after. repeat split; auto.
        intros m'' [<-|Hm'']; auto.
Qed.

(** X5: FindMaterial returns true only with a registered material that
    carries the tag and has no material carrying it registered before it,
    and returns false only when no registered material carries the tag,
    the caller's material then being left as it was. *)
Theorem FindMaterial_sound
    (this : SceneManager) (tag : string) (material : OBJECT_MATERIAL) :
  (exists before m after,
     m_objectMaterials this = before ++ m :: after /\
     unregistered_material tag before /\ mtag m = tag /\
     FindMaterial this tag material = (true, m)) \/
  (unregistered_material tag (m_objectMaterials this) /\
   FindMaterial this tag material = (false, material)).
Proof.
  unfold FindMaterial.
  destruct (FindMaterial_while_cases (m_objectMaterials this) tag)
    as [(Hn & Hu)|(before & m & after & Hl & Hu & Ht & Hf)].
  - right. split; auto. rewrite Hn. now destruct (m_objectMaterials this).
  - left. exists before, m, after. repeat split; auto.
    rewrite Hf, Hl. now destruct before.
Qed.

(** X6: after push_back of a material, FindMaterial by its tag finds it
    when no material with that tag was registered before, and the lookup
    by any tag that was found before still finds the same material: a
    later registration never shadows an earlier one. *)
Theorem push_back_then_FindMaterial
    (this : SceneManager) (new : OBJECT_MATERIAL) (tag : string)
    (material : OBJECT_MATERIAL) :
  exists this',
    push_back new this = Some (tt, this', []) /\
    m_objectMaterials this' = m_objectMaterials this ++ [new] /\
    m_textureIDs this' = m_textureIDs this /\
    m_loadedTextures this' = m_loadedTextures this /\
    (unregistered_material (mtag new) (m_objectMaterials this) ->
     FindMaterial this' (mtag new) material = (true, new)) /\
    (forall m, FindMaterial this tag material = (true, m) ->
               FindMaterial this' tag material = (true, m)).
Proof.
  eexists. split; [reflexivity|]. cbn [m_objectMaterials m_textureIDs m_loadedTextures].
  repeat split.
  - intros Hu. unfold FindMaterial; cbn [m_objectMaterials].
    rewrite FindMaterial_while_first by auto.
    now destruct (m_objectMaterials this).
  - intros m Hm. unfold FindMaterial in *; cbn [m_objectMaterials].
    destruct (FindMaterial_while_cases (m_objectMaterials this) tag)
      as [(Hn & Hu)|(before & m' & after & Hl & Hu & Ht & Hf)].
    + rewrite Hn in Hm. destruct (m_objectMaterials this); discriminate Hm.
    + rewrite Hf in Hm.
      assert (m' = m) by (destruct (m_objectMaterials this); congruence).
      subst m'.
      rewrite Hl, <- app_assoc. simpl app.
      rewrite FindMaterial_while_first by auto.
      now destruct before.
Qed.

(** ** The setters and the shader manager *)

(** X7: with no shader manager (NULL), SetTransformations, SetShaderColor,
    SetShaderTexture and SetTextureUVScale make no call and leave the
    manager as it is; SetShaderMaterial does the same for a tag that is
    not registered, but for a registered tag it calls through the NULL
    pointer, and so does RenderScene whenever a window is current. *)
Theorem detached_shader_manager
    (this : SceneManager) (scaleXYZ positionXYZ : vec3) (X Y Z r g b a u v : R)
    (textureTag materialTag : string) (w : GLFWwindow) (s : statics) :
  m_pShaderManager this = None ->
  SetTransformations scaleXYZ X Y Z positionXYZ this = Some (tt, this, []) /\
  SetShaderColor r g b a this = Some (tt, this, []) /\
  SetShaderTexture textureTag this = Some (tt, this, []) /\
  SetTextureUVScale u v this = Some (tt, this, []) /\
  (FindMaterial_while (m_objectMaterials this) materialTag = None ->
   SetShaderMaterial materialTag this = Some (tt, this, [])) /\
  (FindMaterial_while (m_objectMaterials this) materialTag <> None ->
   SetShaderMaterial materialTag this = None) /\
  RenderScene (Some w) s this = None /\
  RenderScene None s this = Some (s, this, []).
Proof.
  intros Hsm.
  assert (Hshader : forall c, shader c this = None)
    by (intros c; unfold shader; now rewrite Hsm).
  repeat split.
  - unfold SetTransformations, bind, get. now rewrite Hsm.
  - unfold SetShaderColor, bind, get. now rewrite Hsm.
  - unfold SetShaderTexture, bind, get. now rewrite Hsm.
  - unfold SetTextureUVScale, bind, get. now rewrite Hsm.
  - intros Hnone. unfold SetShaderMaterial, FindMaterial, bind, get.
    destruct (m_objectMaterials this); [reflexivity|]. now rewrite Hnone.
  - intros Hsome. unfold SetShaderMaterial, FindMaterial, bind, get.
    destruct (m_objectMaterials this) as [|m0 rest]; [now elim Hsome|].
    destruct (FindMaterial_while (m0 :: rest) materialTag); [|now elim Hsome].
    now rewrite Hshader.
  - unfold RenderScene.
    do 4 (eapply bind_then_undefined; [apply emit_runs | cbv beta]).
    apply bind_undefined, Hshader.
Qed.

Lemma detached_shader_manager_witness :
  m_pShaderManager detached_manager = None /\
  SetShaderMaterial "whiteMaterial" detached_manager = None /\
  SetShaderMaterial "gold" detached_manager = Some (tt, detached_manager, []) /\
  SetShaderTexture "wood" detached_manager = Some (tt, detached_manager, []).
Proof.
  split; [reflexivity|].
  destruct (detached_shader_manager detached_manager
              (mkvec3 1 1 1) (mkvec3 0 0 0) 0 0 0 1 1 1 1 1 1
              "wood" "whiteMaterial" (window_at 0 0 0 false) statics_init eq_refl)
    as (_ & _ & Htex & _ & _ & Hmat & _).
  destruct (detached_shader_manager detached_manager
              (mkvec3 1 1 1) (mkvec3 0 0 0) 0 0 0 1 1 1 1 1 1
              "wood" "gold" (window_at 0 0 0 false) statics_init eq_refl)
    as (_ & _ & _ & _ & Hnone & _).
  split; [apply Hmat; discriminate|].
  split; [apply Hnone; reflexivity | exact Htex].
Defined.

(** X8: with a shader manager attached, SetShaderMaterial for a registered
    tag pushes the five parameters of the first material registered under
    it, so the shader's shininess and ambient strength are then those of
    that material, whatever they were and whatever was registered later
    under the same tag. *)
Theorem SetShaderMaterial_pushes_first
    (this : SceneManager) (p : positive)
    (before : list OBJECT_MATERIAL) (m : OBJECT_MATERIAL)
    (after : list OBJECT_MATERIAL) (current : option R) :
  m_pShaderManager this = Some p ->
  m_objectMaterials this = before ++ m :: after ->
  unregistered_material (mtag m) before ->
  exists calls,
    SetShaderMaterial (mtag m) this = Some (tt, this, calls) /\
    List.length calls = 5%nat /\
    float_uniform "material.shininess" calls current = Some (shininess m) /\
    float_uniform "material.ambientStrength" calls current = Some (ambientStrength m) /\
    vec3_uniform "material.ambientColor" calls None = Some (ambientColor m) /\
    vec3_uniform "material.diffuseColor" calls None = Some (diffuseColor m) /\
    vec3_uniform "material.specularColor" calls None = Some (specularColor m).
Proof.
  intros Hsm Hl Hu.
  exists (material_calls (Some m)). split.
  - rewrite (SetShaderMaterial_runs this p Hsm), Hl.
    now rewrite FindMaterial_while_first.
  - repeat split; reflexivity.
Qed.

Lemma SetShaderMaterial_pushes_first_witness :
  m_pShaderManager scene_manager = Some 1%positive /\
  exists calls,
    SetShaderMaterial "whiteMaterial" scene_manager = Some (tt, scene_manager, calls) /\
    float_uniform "material.shininess" calls None = Some (shininess whiteMaterial).
Proof.
  split; [reflexivity|].
  destruct (SetShaderMaterial_pushes_first scene_manager 1%positive
              [woodMaterial] whiteMaterial [] None eq_refl eq_refl)
    as (calls & Hrun & _ & Hshine & _).
  - intros m' [<-|[]]. discriminate.
  - exists calls. split; [exact Hrun | exact Hshine].
Defined.

(** ** What a load leaves behind in OpenGL and stb_image *)

Lemma CreateGLTexture_success_trace this img textureID filename tag :
  array_ok this ->
  0 <= m_loadedTextures this < 16 ->
  colorChannels img = 3 \/ colorChannels img = 4 ->
  exists calls,
    CreateGLTexture (Some img) textureID filename tag this =
      Some (true,
            {| m_pShaderManager := m_pShaderManager this;
               m_loadedTextures := m_loadedTextures this + 1;
               m_textureIDs := list_set (m_textureIDs this)
                                 (Z.to_nat (m_loadedTextures this))
                                 (mkTEXTURE_INFO tag textureID);
               m_objectMaterials := m_objectMaterials this |},
            calls) /\
    bound_texture calls None = Some 0 /\
    existsb is_image_free calls = true /\
    existsb is_error_wood calls = false.
Proof.
  intros Hok Hn Hc. unfold array_ok in Hok.
  destruct (array_get_in_range (m_textureIDs this) (m_loadedTextures this))
    as (e & Hget & _); try lia.
  destruct Hc as [Hc|Hc]; eexists; (split; [|split; [|split]]);
    try (unfold CreateGLTexture; rewrite Hc;
         do 9 (eapply bind_runs; [apply emit_runs | cbv beta]);
         (eapply bind_runs;
            [cbn [Z.eqb Pos.eqb]; eapply bind_runs; [apply emit_runs | apply ret_runs]
            | cbv beta iota]);
         do 3 (eapply bind_runs; [apply emit_runs | cbv beta]);
         (eapply bind_runs; [apply get_runs | cbv beta]);
         rewrite Hget; cbn [lift];
         (eapply bind_runs; [apply ret_runs | cbv beta]);
         rewrite array_set_in_range by lia; cbn [lift];
         (eapply bind_runs; [apply ret_runs | cbv beta]);
         rewrite array_set_in_range by lia; cbn [lift];
         (eapply bind_runs; [apply ret_runs | cbv beta]);
         rewrite list_set_twice;
         (eapply bind_runs; [reflexivity | apply ret_runs]));
    reflexivity.
Qed.

Lemma CreateGLTexture_rejected_trace this img textureID filename tag :
  colorChannels img <> 3 -> colorChannels img <> 4 ->
  exists calls,
    CreateGLTexture (Some img) textureID filename tag this = Some (false, this, calls) /\
    bound_texture calls None = Some textureID /\
    existsb is_image_free calls = false /\
    existsb is_error_wood calls = false.
Proof.
  intros H3 H4. apply Z.eqb_neq in H3. apply Z.eqb_neq in H4.
  eexists. split; [|split; [|split]].
  - unfold CreateGLTexture.
    do 9 (eapply bind_runs; [apply emit_runs | cbv beta]).
    rewrite H3, H4.
    eapply bind_runs.
    + eapply bind_runs; [apply emit_runs | apply ret_runs].
    + apply ret_runs.
  - reflexivity.
  - reflexivity.
  - reflexivity.
Qed.

(** X9: a load that succeeds frees the image and leaves no texture bound
    to GL_TEXTURE_2D (texture 0); a load rejected for its channel count
    returns with the image not freed and the generated texture still
    bound; a load whose image does not decode makes no OpenGL call at all.
    The rejected loads leave the manager as it is. *)
Theorem CreateGLTexture_cleanup
    (this : SceneManager) (img : stbi_image) (textureID : Z)
    (filename tag : string) :
  array_ok this ->
  0 <= m_loadedTextures this < 16 ->
  (colorChannels img = 3 \/ colorChannels img = 4 ->
   exists this' calls,
     CreateGLTexture (Some img) textureID filename tag this = Some (true, this', calls) /\
     bound_texture calls None = Some 0 /\
     existsb is_image_free calls = true) /\
  (colorChannels img <> 3 -> colorChannels img <> 4 ->
   exists calls,
     CreateGLTexture (Some img) textureID filename tag this = Some (false, this, calls) /\
     bound_texture calls None = Some textureID /\
     existsb is_image_free calls = false) /\
  (exists calls,
     CreateGLTexture None textureID filename tag this = Some (false, this, calls) /\
     existsb is_gl_call calls = false).
Proof.
  intros Hok Hn. split; [|split].
  - intros Hc.
    destruct (CreateGLTexture_success_trace this img textureID filename tag Hok Hn Hc)
      as (calls & Hrun & Hbound & Hfree & _).
    eexists; exists calls. split; [exact Hrun|]. split; [exact Hbound | exact Hfree].
  - intros H3 H4.
    destruct (CreateGLTexture_rejected_trace this img textureID filename tag H3 H4)
      as (calls & Hrun & Hbound & Hfree & _).
    exists calls. split; [exact Hrun|]. split; [exact Hbound | exact Hfree].
  - eexists. split; reflexivity.
Qed.

Lemma CreateGLTexture_cleanup_witness :
  array_ok (manager_with 1 "wood") /\
  0 <= m_loadedTextures (manager_with 1 "wood") < 16 /\
  exists calls,
    CreateGLTexture (Some gray_image) 9 "Debug/gray.png" "gray" (manager_with 1 "wood")
    = Some (false, manager_with 1 "wood", calls) /\
    bound_texture calls None = Some 9.
Proof.
  assert (Hok : array_ok (manager_with 1 "wood")) by reflexivity.
  assert (Hn : 0 <= m_loadedTextures (manager_with 1 "wood") < 16) by (simpl; lia).
  split; [exact Hok|]. split; [exact Hn|].
  destruct (CreateGLTexture_cleanup (manager_with 1 "wood") gray_image 9
              "Debug/gray.png" "gray" Hok Hn) as (_ & Hrej & _).
  destruct Hrej as (calls & Hrun & Hbound & _); try discriminate.
  exists calls. split; [exact Hrun | exact Hbound].
Defined.

(** ** The scene build on any manager *)

Lemma bind_calls_no_error l : forall i, existsb is_error_wood (bind_calls l i) = false.
Proof.
  induction l as [|e r IH]; intros i; simpl; auto.
Qed.

Lemma SetTextureUVScale_returns this u v :
  exists calls,
    SetTextureUVScale u v this = Some (tt, this, calls) /\
    existsb is_error_wood calls = false.
Proof.
  destruct (m_pShaderManager this) as [p|] eqn:Hsm.
  - eexists. split; [apply (SetTextureUVScale_runs this p Hsm) | reflexivity].
  - exists []. split; [|reflexivity].
    unfold SetTextureUVScale, bind, get. now rewrite Hsm.
Qed.

(** The load of wood.jpg in the scene build: what it returns, the manager
    afterwards and that it does not write the build's own error message. *)
Lemma CreateGLTexture_in_build this image textureID :
  array_ok this ->
  0 <= m_loadedTextures this < 16 ->
  exists this1 calls1,
    CreateGLTexture image textureID "Debug/wood.jpg" "wood" this
      = Some (accepted image, this1, calls1) /\
    existsb is_error_wood calls1 = false /\
    m_pShaderManager this1 = m_pShaderManager this /\
    m_objectMaterials this1 = m_objectMaterials this /\
    array_ok this1 /\
    m_loadedTextures this1 =
      (if accepted image then m_loadedTextures this + 1 else m_loadedTextures this) /\
    loaded this1 =
      (if accepted image then loaded this ++ [mkTEXTURE_INFO "wood" textureID]
       else loaded this).
Proof.
  intros Hok Hn.
  destruct (accepted image) eqn:Hacc.
  - destruct image as [img|]; [|discriminate Hacc].
    destruct (CreateGLTexture_success_trace this img textureID "Debug/wood.jpg" "wood"
                Hok Hn (accepted_channels img Hacc)) as (calls1 & Hrun & _ & _ & Herr).
    eexists; exists calls1. split; [exact Hrun|]. split; [exact Herr|].
    cbn [m_pShaderManager m_objectMaterials m_loadedTextures].
    repeat split.
    + unfold array_ok in *. cbn [m_textureIDs]. now rewrite length_list_set.
    + now apply loaded_after_store.
  - destruct image as [img|].
    + unfold accepted in Hacc. apply orb_false_iff in Hacc. destruct Hacc as [H3 H4].
      apply Z.eqb_neq in H3. apply Z.eqb_neq in H4.
      destruct (CreateGLTexture_rejected_trace this img textureID "Debug/wood.jpg" "wood"
                  H3 H4) as (calls1 & Hrun & _ & _ & Herr).
      exists this, calls1. repeat split; auto.
    + eexists; eexists. split; [reflexivity|]. repeat split; auto.
Qed.

Lemma PrepareScene_returns this image textureID :
  array_ok this ->
  0 <= m_loadedTextures this < 16 ->
  exists this' calls,
    PrepareScene image textureID this = Some (tt, this', calls) /\
    m_pShaderManager this' = m_pShaderManager this /\
    array_ok this' /\
    m_objectMaterials this' = m_objectMaterials this ++ [woodMaterial; whiteMaterial] /\
    m_loadedTextures this' =
      (if accepted image then m_loadedTextures this + 1 else m_loadedTextures this) /\
    loaded this' =
      (if accepted image then loaded this ++ [mkTEXTURE_INFO "wood" textureID]
       else loaded this) /\
    existsb is_error_wood calls = negb (accepted image).
Proof.
  intros Hok Hn.
  destruct (CreateGLTexture_in_build this image textureID Hok Hn)
    as (this1 & calls1 & Hrun1 & Herr1 & Hsm & Hmat & Hok1 & Hcount & Hloaded).
  destruct (SetTextureUVScale_returns this1 8.0 4.0) as (calls2 & Hrun2 & Herr2).
  assert (Hn1 : m_loadedTextures this1 <= 16)
    by (rewrite Hcount; destruct (accepted image); lia).
  pose proof (BindGLTextures_calls this1 Hok1 Hn1) as Hbind.
  assert (Hmsg : exists calls3,
    (if negb (accepted image) then emit (cout msg_error_wood) else ret tt) this1
      = Some (tt, this1, calls3) /\
    existsb is_error_wood calls3 = negb (accepted image))
    by (destruct (accepted image); eexists; split; reflexivity).
  destruct Hmsg as (calls3 & Hmsg & Herr3).
  eexists; eexists. split.
  - unfold PrepareScene.
    do 3 (eapply bind_runs; [apply emit_runs | cbv beta]).
    eapply bind_runs; [exact Hrun1 | cbv beta].
    eapply bind_runs; [exact Hmsg | cbv beta].
    eapply bind_runs; [exact Hrun2 | cbv beta].
    eapply bind_runs; [exact Hbind | cbv beta].
    eapply bind_runs; [reflexivity | reflexivity].
  - cbn [m_pShaderManager m_objectMaterials m_loadedTextures m_textureIDs].
    split; [exact Hsm|]. split; [exact Hok1|].
    split; [rewrite Hmat, <- app_assoc; reflexivity|].
    split; [exact Hcount|]. split; [exact Hloaded|].
    cbn [app existsb is_error_wood orb].
    rewrite !existsb_app, Herr1, Herr3, Herr2, bind_calls_no_error.
    cbn. now rewrite orb_false_r.
Qed.


(** X10: on any manager within its array (fewer than 16 textures counted),
    with or without a shader manager, the scene build returns: it appends
    exactly the two materials after those already registered, appends the
    texture "wood" and counts it exactly when wood.jpg is accepted, and
    writes its error message exactly when it is not; a failed load is not
    fatal, and a second build registers everything a second time. *)
Theorem PrepareScene_appends
    (this : SceneManager) (image : option stbi_image) (textureID : Z) :
  array_ok this ->
  0 <= m_loadedTextures this < 16 ->
  exists this' calls,
    PrepareScene image textureID this = Some (tt, this', calls) /\
    m_pShaderManager this' = m_pShaderManager this /\
    array_ok this' /\
    m_objectMaterials this' = m_objectMaterials this ++ [woodMaterial; whiteMaterial] /\
    m_loadedTextures this' =
      (if accepted image then m_loadedTextures this + 1 else m_loadedTextures this) /\
    loaded this' =
      (if accepted image then loaded this ++ [mkTEXTURE_INFO "wood" textureID]
       else loaded this) /\
    existsb is_error_wood calls = negb (accepted image).
Proof.
  apply PrepareScene_returns.
Qed.

Lemma PrepareScene_appends_witness :
  array_ok built_manager /\
  0 <= m_loadedTextures built_manager < 16 /\
  exists this' calls,
    PrepareScene None 0 built_manager = Some (tt, this', calls) /\
    m_objectMaterials this' =
      [woodMaterial; whiteMaterial; woodMaterial; whiteMaterial] /\
    m_loadedTextures this' = 1 /\
    existsb is_error_wood calls = true.
Proof.
  assert (Hok : array_ok built_manager) by reflexivity.
  assert (Hn : 0 <= m_loadedTextures built_manager < 16) by (simpl; lia).
  split; [exact Hok|]. split; [exact Hn|].
  destruct (PrepareScene_appends built_manager None 0 Hok Hn)
    as (this' & calls & Hrun & _ & _ & Hmat & Hcount & _ & Herr).
  exists this', calls. split; [exact Hrun|]. split; [exact Hmat|].
  split; [exact Hcount | exact Herr].
Defined.

(** X11: the constructor does not assign the texture count.  On a manager
    fresh from it, the scene build with an accepted image returns exactly
    when the count it happens to start with is within 0..15; with any
    other starting count the load writes outside the array. *)
Theorem PrepareScene_needs_count_in_array
    (pShaderManager : ShaderManager_ptr) (loaded0 : Z) (id0 : nat -> Z)
    (image : option stbi_image) (textureID : Z) :
  accepted image = true ->
  (0 <= loaded0 < 16 <->
   exists this calls,
     PrepareScene image textureID (SceneManager_new pShaderManager loaded0 id0)
       = Some (tt, this, calls)) /\
  (~ 0 <= loaded0 < 16 ->
   PrepareScene image textureID (SceneManager_new pShaderManager loaded0 id0) = None).
Proof.
  intros Hacc.
  destruct image as [img|]; [|discriminate Hacc].
  pose proof (accepted_channels img Hacc) as Hc.
  assert (Hout : ~ 0 <= loaded0 < 16 ->
    PrepareScene (Some img) textureID (SceneManager_new pShaderManager loaded0 id0) = None).
  { intros Hn. unfold PrepareScene.
    do 3 (eapply bind_then_undefined; [apply emit_runs | cbv beta]).
    apply bind_undefined.
    apply CreateGLTexture_outside_array; auto. }
  split; [split|exact Hout].
  - intros Hn.
    destruct (PrepareScene_returns (SceneManager_new pShaderManager loaded0 id0)
                (Some img) textureID (array_ok_new _ _ _) Hn)
      as (this & calls & Hrun & _).
    now exists this, calls.
  - intros (this & calls & Hrun).
    destruct (Z_le_dec 0 loaded0); [destruct (Z_lt_dec loaded0 16)|]; try lia;
      rewrite Hout in Hrun by lia; discriminate Hrun.
Qed.

Lemma PrepareScene_needs_count_in_array_witness :
  accepted (Some rgb_image) = true /\
  PrepareScene (Some rgb_image) 1 (SceneManager_new (Some 1%positive) (-3) (fun _ => 0))
    = None.
Proof.
  split; [reflexivity|].
  apply (proj2 (PrepareScene_needs_count_in_array (Some 1%positive) (-3) (fun _ => 0)
                  (Some rgb_image) 1 eq_refl)).
  lia.
Defined.

(** ** The camera between frames *)



Lemma sin2_plus_cos2 x : (sin x * sin x + cos x * cos x = 1)%R.
Proof.
  pose proof (sin2_cos2 x) as H. unfold Rsqr in H. exact H.
Qed.

(** X14: after every frame with a window the camera front is the unit
    vector of the new yaw and pitch, (cos yaw cos pitch, sin pitch,
    sin yaw cos pitch) with the angles in radians: the normalization
    leaves it as computed. *)
Theorem cameraFront_is_unit (w : GLFWwindow) (s : statics) :
  let s' := handle_input w s in
  cameraFront s' =
    mkvec3 (cos (radians (yaw s')) * cos (radians (pitch s')))
           (sin (radians (pitch s')))
           (sin (radians (yaw s')) * cos (radians (pitch s'))) /\
  dot (cameraFront s') (cameraFront s') = 1%R.
Proof.
  cbv zeta. unfold handle_input; cbn [cameraFront yaw pitch].
  set (y := radians _). set (p := radians _).
  assert (Hdot : dot (mkvec3 (cos y * cos p) (sin p) (sin y * cos p))
                     (mkvec3 (cos y * cos p) (sin p) (sin y * cos p)) = 1%R).
  { unfold dot; cbv [x3 y3 z3].
    pose proof (sin2_plus_cos2 y) as Hy. pose proof (sin2_plus_cos2 p) as Hp.
    replace (cos y * cos p * (cos y * cos p) + sin p * sin p
             + sin y * cos p * (sin y * cos p))%R
      with ((sin y * sin y + cos y * cos y) * (cos p * cos p) + sin p * sin p)%R by ring.
    rewrite Hy. lra. }
  assert (Hnorm : normalize (mkvec3 (cos y * cos p) (sin p) (sin y * cos p))
                  = mkvec3 (cos y * cos p) (sin p) (sin y * cos p)).
  { unfold normalize. rewrite Hdot, inversesqrt_1.
    unfold vec3_scale; cbv [x3 y3 z3]. f_equal; ring. }
  rewrite Hnorm. split; [reflexivity | exact Hdot].
Qed.

Lemma vec3_add_sub_cancel a b : vec3_sub (vec3_add a b) b = a.
Proof.
  destruct a, b. unfold vec3_sub, vec3_add; cbv [x3 y3 z3]. f_equal; ring.
Qed.

Lemma vec3_sub_add_cancel a b : vec3_add (vec3_sub a b) b = a.
Proof.
  destruct a, b. unfold vec3_sub, vec3_add; cbv [x3 y3 z3]. f_equal; ring.
Qed.

(** X15: opposite movement keys cancel: in a frame where W and S are in
    the same state, A and D are, and Q and E are (all released, or both
    keys of a pair held), the camera position does not change, whatever
    the time elapsed and the direction of view. *)
Theorem opposite_keys_cancel (w : GLFWwindow) (s : statics) :
  glfwGetKey w GLFW_KEY_W = glfwGetKey w GLFW_KEY_S ->
  glfwGetKey w GLFW_KEY_A = glfwGetKey w GLFW_KEY_D ->
  glfwGetKey w GLFW_KEY_Q = glfwGetKey w GLFW_KEY_E ->
  cameraPos (handle_input w s) = cameraPos s.
Proof.
  intros HWS HAD HQE. unfold handle_input; cbn [cameraPos].
  rewrite HWS, HAD, HQE.
  destruct (glfwGetKey w GLFW_KEY_E);
    rewrite ?vec3_add_sub_cancel;
    destruct (glfwGetKey w GLFW_KEY_D);
    rewrite ?vec3_sub_add_cancel;
    destruct (glfwGetKey w GLFW_KEY_S);
    rewrite ?vec3_add_sub_cancel; reflexivity.
Qed.

Lemma opposite_keys_cancel_witness :
  let w := window_keys 10 20 3 [GLFW_KEY_W; GLFW_KEY_S; GLFW_KEY_P] in
  glfwGetKey w GLFW_KEY_W = glfwGetKey w GLFW_KEY_S /\
  glfwGetKey w GLFW_KEY_A = glfwGetKey w GLFW_KEY_D /\
  glfwGetKey w GLFW_KEY_Q = glfwGetKey w GLFW_KEY_E /\
  cameraPos (handle_input w statics_init) = cameraPos statics_init.
Proof.
  cbv zeta. repeat split.
  apply (opposite_keys_cancel
           (window_keys 10 20 3 [GLFW_KEY_W; GLFW_KEY_S; GLFW_KEY_P])
           statics_init eq_refl eq_refl eq_refl).
Defined.


(** X16: no run of calls changes the movement speed or the up vector, and
    the first-sample flag, once cleared by a call with a window, is never
    set again. *)
Theorem statics_never_changed (frames : list (option GLFWwindow)) (s : statics) :
  let s' := statics_after frames s in
  speed s' = speed s /\
  cameraUp s' = cameraUp s /\
  (firstMouse s = false -> firstMouse s' = false) /\
  (firstMouse s' = true -> s' = s).
Proof.
  cbv zeta. revert s.
  induction frames as [|[w|] frames IH]; intros s; cbn [statics_after].
  - auto.
  - destruct (IH (handle_input w s)) as (Hs & Hu & Hf & Hsame).
    split; [rewrite Hs; reflexivity|]. split; [rewrite Hu; reflexivity|].
    split; [intros _; now apply Hf|].
    intros Htrue. specialize (Hf eq_refl). congruence.
  - apply IH.
Qed.

(** ** What a frame pushes about the camera *)

(** X18: a frame pushes the view position and the spot light's position
    and direction from the camera as it was before this frame's input,
    but builds the view matrix from the camera after the input: the light
    follows the camera one frame late.  Lighting is switched on, and the
    frame ends with the use-texture flag off. *)
Theorem frame_lights_lag_camera
    (this : SceneManager) (p : positive) (slot : Z)
    (w : GLFWwindow) (s : statics) (current : option Z) :
  m_pShaderManager this = Some p ->
  FindTextureSlot this "wood" = Some slot ->
  exists calls,
    RenderScene (Some w) s this = Some (handle_input w s, this, calls) /\
    vec3_uniform "viewPos" calls None = Some (cameraPos s) /\
    vec3_uniform "spotLight.position" calls None = Some (cameraPos s) /\
    vec3_uniform "spotLight.direction" calls None = Some (cameraFront s) /\
    mat4_uniform "view" calls None =
      Some (lookAt (cameraPos (handle_input w s))
                   (vec3_add (cameraPos (handle_input w s))
                             (cameraFront (handle_input w s)))
                   (cameraUp (handle_input w s))) /\
    int_uniform "bUseLighting" calls current = Some 1 /\
    int_uniform "bUseTexture" calls current = Some 0.
Proof.
  intros Hsm Hslot. eexists. split.
  - unfold RenderScene, SetupSceneLights, draw_objects.
    run_method Hsm Hslot.
  - generalize (FindMaterial_while (m_objectMaterials this) "woodMaterial").
    generalize (FindMaterial_while (m_objectMaterials this) "whiteMaterial").
    intros [white|] [wood|]; repeat split; reflexivity.
Qed.

Lemma frame_lights_lag_camera_witness :
  m_pShaderManager built_manager = Some 1%positive /\
  FindTextureSlot built_manager "wood" = Some 0 /\
  exists calls,
    RenderScene (Some (window_keys 400 300 2 [GLFW_KEY_Q])) statics_init built_manager
      = Some (handle_input (window_keys 400 300 2 [GLFW_KEY_Q]) statics_init,
              built_manager, calls) /\
    vec3_uniform "spotLight.position" calls None = Some (mkvec3 0.0 2.0 8.0).
Proof.
  split; [reflexivity|]. split; [reflexivity|].
  destruct (frame_lights_lag_camera built_manager 1%positive 0
              (window_keys 400 300 2 [GLFW_KEY_Q]) statics_init None eq_refl eq_refl)
    as (calls & Hrun & _ & Hspot & _).
  exists calls. split; [exact Hrun | exact Hspot].
Defined.

(** ** The model matrix and the projections on points *)

Lemma rotate_fixes_origin angle axis vw :
  mat4_mul_vec4 (rotate angle axis) (mkvec4 0 0 0 vw) = mkvec4 0 0 0 vw.
Proof.
  unfold rotate. cbv zeta. glm_unfold. f_equal; ring.
Qed.

Lemma rotate_keeps_w angle axis v :
  w4 (mat4_mul_vec4 (rotate angle axis) v) = w4 v.
Proof.
  destruct v as [vx vy vz vw].
  unfold rotate. cbv zeta. glm_unfold. ring.
Qed.

(** X19: whatever the scale and the three rotations, the model matrix of
    SetTransformations takes the origin of the object to positionXYZ, and
    it takes points to points (the fourth coordinate stays 1). *)
Theorem modelView_places_origin
    (scaleXYZ : vec3) (X Y Z : R) (positionXYZ p : vec3) :
  mat4_mul_vec4 (modelView scaleXYZ X Y Z positionXYZ) (point (mkvec3 0 0 0))
    = point positionXYZ /\
  w4 (mat4_mul_vec4 (modelView scaleXYZ X Y Z positionXYZ) (point p)) = 1%R.
Proof.
  unfold modelView. rewrite !mat4_mul_vec4_assoc. split.
  - assert (Hs : mat4_mul_vec4 (glm.scale scaleXYZ) (point (mkvec3 0 0 0))
                 = mkvec4 0 0 0 1).
    { destruct scaleXYZ. glm_unfold. f_equal; ring. }
    rewrite Hs, !rotate_fixes_origin.
    destruct positionXYZ. glm_unfold. f_equal; ring.
  - assert (Ht : forall v, w4 (mat4_mul_vec4 (translate positionXYZ) v) = w4 v).
    { intros [vx vy vz vw]. destruct positionXYZ. glm_unfold. ring. }
    rewrite Ht, !rotate_keeps_w.
    destruct scaleXYZ, p. glm_unfold. ring.
Qed.

(** X20: on a point (x, y, z) the orthographic projection of RenderScene
    gives (x/10, y/10, .., 1), with the depths -0.1 and -100 taken to -1
    and 1, and no division by depth; the perspective projection gives the
    fourth coordinate -z, the depth that the division uses. *)
Theorem projection_on_points (x y z : R) :
  x4 (mat4_mul_vec4 (projection false) (point (mkvec3 x y z))) = (x / 10)%R /\
  y4 (mat4_mul_vec4 (projection false) (point (mkvec3 x y z))) = (y / 10)%R /\
  w4 (mat4_mul_vec4 (projection false) (point (mkvec3 x y z))) = 1%R /\
  z4 (mat4_mul_vec4 (projection false) (point (mkvec3 x y (-0.1)))) = (-1)%R /\
  z4 (mat4_mul_vec4 (projection false) (point (mkvec3 x y (-100)))) = 1%R /\
  w4 (mat4_mul_vec4 (projection true) (point (mkvec3 x y z))) = (- z)%R.
Proof.
  unfold projection, ortho, perspective. cbv zeta. glm_unfold.
  repeat split; lra.
Qed.

(** ** The name a lookup gives back *)

Lemma int_of_uint32_mod u :
  0 <= u < 4294967296 ->
  int_of_uint32 u mod 4294967296 = u /\
  (u < 2147483648 -> int_of_uint32 u = u) /\
  (int_of_uint32 u = -1 <-> u = 4294967295).
Proof.
  intros Hu. unfold int_of_uint32.
  destruct (Z.ltb_spec u 2147483648).
  - split; [apply Z.mod_small; lia|]. split; [auto|]. lia.
  - split.
    + replace (u - 4294967296) with (u + (-1) * 4294967296) by lia.
      rewrite Z.mod_add by lia. apply Z.mod_small; lia.
    + split; lia.
Qed.

(** X21: for the first entry loaded under a tag, with a 32-bit name,
    FindTextureID returns the name converted to int: the name itself when
    it is below 2^31, the name again modulo 2^32 in any case, and the
    not-found value -1 exactly when the name is 4294967295. *)
Theorem FindTextureID_returns_name
    (this : SceneManager)
    (before : list TEXTURE_INFO) (e : TEXTURE_INFO) (after : list TEXTURE_INFO) :
  array_ok this ->
  m_loadedTextures this <= 16 ->
  loaded this = before ++ e :: after ->
  unregistered (tag_of e) before ->
  0 <= ID e < 4294967296 ->
  exists r,
    FindTextureID this (tag_of e) = Some r /\
    r mod 4294967296 = ID e /\
    (ID e < 2147483648 -> r = ID e) /\
    (r = -1 <-> ID e = 4294967295).
Proof.
  intros Hok Hn Hl Hu Hid.
  exists (int_of_uint32 (ID e)). split.
  - rewrite FindTextureID_loaded, Hl by auto. now rewrite id_in_first.
  - now apply int_of_uint32_mod.
Qed.

Lemma FindTextureID_returns_name_witness :
  array_ok scene_manager /\
  m_loadedTextures scene_manager <= 16 /\
  FindTextureID scene_manager "tile" = Some 8.
Proof.
  assert (Hn : m_loadedTextures scene_manager <= 16) by (simpl; lia).
  split; [reflexivity|]. split; [exact Hn|].
  destruct (FindTextureID_returns_name scene_manager
              [mkTEXTURE_INFO "wood" 7] (mkTEXTURE_INFO "tile" 8) [mkTEXTURE_INFO "wood" 9]
              eq_refl Hn eq_refl) as (r & Hfind & _ & Hsmall & _).
  - intros e' [<-|[]]. discriminate.
  - simpl; lia.
  - change (tag_of (mkTEXTURE_INFO "tile" 8)) with "tile" in Hfind.
    rewrite Hfind. f_equal. apply Hsmall. simpl; lia.
Defined.

(** ** Several loads in a row *)

Lemma load_all_runs img (Himg : colorChannels img = 3 \/ colorChannels img = 4) items :
  forall this,
  array_ok this ->
  0 <= m_loadedTextures this ->
  m_loadedTextures this + Z.of_nat (List.length items) <= 16 ->
  exists this' calls,
    load_all img items this = Some (tt, this', calls) /\
    array_ok this' /\
    m_loadedTextures this' = m_loadedTextures this + Z.of_nat (List.length items) /\
    loaded this' = loaded this ++ map entry_of items /\
    m_objectMaterials this' = m_objectMaterials this /\
    m_pShaderManager this' = m_pShaderManager this.
Proof.
  induction items as [|[[filename tag] textureID] rest IH]; intros this Hok H0 Hn.
  - exists this, []. cbn [load_all List.length map].
    rewrite app_nil_r, Z.add_0_r. repeat split; auto.
  - cbn [List.length] in Hn.
    assert (Hn1 : 0 <= m_loadedTextures this < 16) by lia.
    destruct (CreateGLTexture_stores this img textureID filename tag Hok Hn1 Himg)
      as (calls1 & Hrun1).
    set (this1 := {| m_pShaderManager := m_pShaderManager this;
                     m_loadedTextures := m_loadedTextures this + 1;
                     m_textureIDs := list_set (m_textureIDs this)
                                       (Z.to_nat (m_loadedTextures this))
                                       (mkTEXTURE_INFO tag textureID);
                     m_objectMaterials := m_objectMaterials this |}) in *.
    assert (Hok1 : array_ok this1)
      by (unfold array_ok in *; cbn [this1 m_textureIDs]; now rewrite length_list_set).
    destruct (IH this1 Hok1) as (this' & calls2 & Hrun2 & Hok' & Hcount & Hloaded & Hmat & Hsm);
      try (cbn [this1 m_loadedTextures]; lia).
    exists this', (calls1 ++ calls2). split.
    + cbn [load_all]. apply (bind_runs _ _ _ _ _ _ _ _ _ Hrun1 Hrun2).
    + split; [exact Hok'|].
      split; [rewrite Hcount; cbn [this1 m_loadedTextures List.length]; lia|].
      split; [|split; [exact Hmat | exact Hsm]].
      rewrite Hloaded. unfold this1.
      rewrite loaded_after_store by auto.
      cbn [map entry_of fst snd]. now rewrite <- app_assoc.
Qed.

(** X22: loading several good images in a row into a registry that has
    room for them stores their entries after the loaded ones, in the order
    of the loads, and counts them; afterwards the lookups by the tag of a
    load give its slot (the count before plus its position in the row) and
    its name, provided no earlier entry or load used the same tag. *)
Theorem load_all_then_find
    (this : SceneManager) (img : stbi_image)
    (pre : list (string * string * Z)) (item : string * string * Z)
    (post : list (string * string * Z)) :
  array_ok this ->
  0 <= m_loadedTextures this ->
  m_loadedTextures this + Z.of_nat (List.length (pre ++ item :: post)) <= 16 ->
  colorChannels img = 3 \/ colorChannels img = 4 ->
  unregistered (tag_of (entry_of item)) (loaded this ++ map entry_of pre) ->
  exists this' calls,
    load_all img (pre ++ item :: post) this = Some (tt, this', calls) /\
    m_loadedTextures this' =
      m_loadedTextures this + Z.of_nat (List.length (pre ++ item :: post)) /\
    loaded this' = loaded this ++ map entry_of (pre ++ item :: post) /\
    FindTextureSlot this' (tag_of (entry_of item)) =
      Some (m_loadedTextures this + Z.of_nat (List.length pre)) /\
    FindTextureID this' (tag_of (entry_of item)) =
      Some (int_of_uint32 (ID (entry_of item))).
Proof.
  intros Hok H0 Hn Himg Hfresh.
  destruct (load_all_runs img Himg (pre ++ item :: post) this Hok H0 Hn)
    as (this' & calls & Hrun & Hok' & Hcount & Hloaded & _).
  exists this', calls. split; [exact Hrun|]. split; [exact Hcount|].
  split; [exact Hloaded|].
  assert (Hsplit : loaded this' =
            (loaded this ++ map entry_of pre) ++ entry_of item :: map entry_of post)
    by (rewrite Hloaded, map_app, <- app_assoc; reflexivity).
  pose proof (length_loaded this Hok ltac:(rewrite length_app in Hn; lia)) as Hlen.
  rewrite FindTextureSlot_loaded, FindTextureID_loaded by (auto; lia).
  rewrite Hsplit, slot_in_first, id_in_first by auto.
  split; [|reflexivity].
  f_equal. rewrite length_app, length_map. lia.
Qed.

Lemma load_all_then_find_witness :
  let items := [("a.png", "a", 11); ("b.png", "b", 12); ("c.png", "a", 13)] in
  array_ok built_manager /\
  0 <= m_loadedTextures built_manager /\
  m_loadedTextures built_manager + Z.of_nat (List.length items) <= 16 /\
  exists this' calls,
    load_all rgb_image items built_manager = Some (tt, this', calls) /\
    FindTextureSlot this' "b" = Some 2 /\
    FindTextureID this' "b" = Some 12.
Proof.
  cbv zeta.
  assert (Hok : array_ok built_manager) by reflexivity.
  assert (H0 : 0 <= m_loadedTextures built_manager) by (simpl; lia).
  assert (Hn : m_loadedTextures built_manager
               + Z.of_nat (List.length ([("a.png", "a", 11)] ++
                                        ("b.png", "b", 12) :: [("c.png", "a", 13)])) <= 16)
    by (simpl; lia).
  split; [exact Hok|]. split; [exact H0|]. split; [exact Hn|].
  destruct (load_all_then_find built_manager rgb_image
              [("a.png", "a", 11)] ("b.png", "b", 12) [("c.png", "a", 13)]
              Hok H0 Hn (or_introl eq_refl))
    as (this' & calls & Hrun & _ & _ & Hslot & Hid).
  - intros e He. vm_compute in He. destruct He as [<-|[<-|[]]]; discriminate.
  - exists this', calls. split; [exact Hrun|]. split; [exact Hslot | exact Hid].
Defined.

(** ** The lights *)

(** Runs a method made of unguarded calls to the shader manager only. *)
Ltac run_shader Hsm :=
  first
    [ apply (shader_runs _ _ Hsm)
    | eapply bind_runs; [ run_shader Hsm | cbv beta; run_shader Hsm ] ].

(** X23: with a shader manager attached, SetupSceneLights leaves the
    manager as it is and pushes 28 parameters, each one once; the spot
    light's position and direction are the two vectors it is given, and
    every other push is the same whatever those vectors are. *)
Theorem SetupSceneLights_pushes
    (this : SceneManager) (p : positive)
    (cameraPos cameraFront cameraPos' cameraFront' : vec3) :
  m_pShaderManager this = Some p ->
  exists calls calls',
    SetupSceneLights cameraPos cameraFront this = Some (tt, this, calls) /\
    SetupSceneLights cameraPos' cameraFront' this = Some (tt, this, calls') /\
    List.length (pushed_names calls) = 28%nat /\
    List.length calls = 28%nat /\
    distinct (pushed_names calls) = true /\
    vec3_uniform "spotLight.position" calls None = Some cameraPos /\
    vec3_uniform "spotLight.direction" calls None = Some cameraFront /\
    filter (fun c => negb (is_spot_camera c)) calls =
    filter (fun c => negb (is_spot_camera c)) calls'.
Proof.
  intros Hsm. eexists; eexists.
  split; [unfold SetupSceneLights; run_shader Hsm|].
  split; [unfold SetupSceneLights; run_shader Hsm|].
  do 5 (split; [reflexivity|]).
  vm_compute. reflexivity.
Qed.

Lemma SetupSceneLights_pushes_witness :
  m_pShaderManager new_manager = Some 1%positive /\
  exists calls,
    SetupSceneLights (mkvec3 0 2 8) (mkvec3 0 0 (-1)) new_manager
      = Some (tt, new_manager, calls) /\
    List.length calls = 28%nat.
Proof.
  split; [reflexivity|].
  destruct (SetupSceneLights_pushes new_manager 1%positive
              (mkvec3 0 2 8) (mkvec3 0 0 (-1)) (mkvec3 1 1 1) (mkvec3 1 0 0) eq_refl)
    as (calls & calls' & Hrun & _ & _ & Hlen & _).
  exists calls. split; [exact Hrun | exact Hlen].
Defined.

(** ** The view matrix *)







